(** * confidential-gke-app: a shallow embedding of [app.py]

    The repository is one Flask script.  It creates an application object,
    registers one view on the rule ['/'] and, when run as a script, reads the
    [PORT] environment variable and hands the application to [app.run].

    The script's own code is embedded in [Module App], statement by
    statement.  Everything it calls lives outside the repository and is
    modelled from the libraries' behaviour (Python 3.11 or later, Flask 3 on
    Werkzeug 3.1; the repository pins no versions):
    - [Module Py]: what the script and the libraries use of the interpreter
      ([os.environ.get], [int], [str] methods, the [idna] codec, the order of
      a [set], an uncaught exception ending the process);
    - [Module Json]: [json.dumps] and [json.loads];
    - [Module Werkzeug]: responses, HTTP exceptions, URL binding and URL
      matching;
    - [Module Flask]: [Flask(__name__)], [app.route], [jsonify], request
      dispatch, [app.run] and the development server behind it.

    Conventions:
    - strings are Python [str] values over the code points U+0000..U+00FF;
    - an expression that may raise has a [result]; a view function passes the
      module-level state explicitly;
    - what the program cannot decide is a parameter: the interpreter
      ([Py.interp]: digit limit, hash seed, Unicode tables) and the operating
      system ([Flask.os]: which addresses can be bound, how the C library
      resolves a port number, which port it picks for port 0);
    - a request is what the WSGI server hands to the application in
      [environ]: method, scheme, host, path, query string, the [HTTP_*]
      variables and the body;
    - the files are those of the repository: there is no [static] folder
      next to [app.py] and no [.env] or [.flaskenv] file. *)

From Stdlib Require Import ZArith Lia Ascii String List Bool Permutation.
From stdpp Require Import base tactics option strings pretty gmap.

Local Open Scope Z_scope.
Set Warnings "-register-all".

(** ** A small error monad: Python expressions that may raise *)

Inductive result (E A : Type) : Type :=
| Ok (a : A)
| Raise (e : E).
Arguments Ok {E A} a.
Arguments Raise {E A} e.

#[global] Instance result_ret {E} : MRet (result E) := λ A a, Ok a.
#[global] Instance result_bind {E} : MBind (result E) := λ A B k m,
  match m with
  | Ok a => k a
  | Raise e => Raise e
  end.

(** ** Text helpers shared by the models *)

(** [s] without its prefix [p], when it has that prefix. *)
Fixpoint strip_prefix (p s : string) : option string :=
  match p, s with
  | EmptyString, _ => Some s
  | String a p', String b s' => if Ascii.eqb a b then strip_prefix p' s' else None
  | String _ _, EmptyString => None
  end.

(** [x in l] for a list of strings. *)
Definition mem (x : string) (l : list string) : bool := existsb (String.eqb x) l.

(** A text of ASCII characters only. *)
Fixpoint all_ascii (s : string) : bool :=
  match s with
  | EmptyString => true
  | String c r => (N_of_ascii c <? 128)%N && all_ascii r
  end.

(** ** Python built-ins *)

Module Py.

(** The exceptions that can reach the top level of the script. *)
Inductive exn : Type :=
| ValueError_invalid_literal (literal : string)
    (* ValueError: invalid literal for int() with base 10: <repr> *)
| ValueError_max_str_digits (digits : nat)
    (* ValueError: Exceeds the limit for integer string conversion *)
| KeyError (key : string)
    (* KeyError: <repr>, from os.environ[key] *)
| OverflowError_port
    (* OverflowError: bind(): port must be 0-65535. *)
| OverflowError_c_long
    (* OverflowError: Python int too large to convert to C long *)
| OSError (errno : Z) (strerror : string)
| SystemExit (status : Z) (printed : string).
    (* sys.exit(status), after [printed] was written to standard error *)

Definition exn_name (e : exn) : string :=
  match e with
  | ValueError_invalid_literal _ | ValueError_max_str_digits _ => "ValueError"
  | KeyError _ => "KeyError"
  | OverflowError_port | OverflowError_c_long => "OverflowError"
  | OSError _ _ => "OSError"
  | SystemExit _ _ => "SystemExit"
  end.

(** Values an expression of the script can have. *)
Inductive value : Type :=
| VStr (s : string)
| VInt (n : Z).

(** What differs from one interpreter process to the next:
    - [int_max_str_digits] is [sys.get_int_max_str_digits()]; a limit of [0]
      switches the check off;
    - [str_hash] stands for the hashes of strings, which the interpreter
      salts with a seed it draws at startup ([PYTHONHASHSEED]); it decides
      the order in which a [set] of strings is iterated;
    - [idna_non_ascii] is the [idna] codec on a name with characters outside
      ASCII (nameprep and punycode, from the interpreter's Unicode tables);
      [None] when the codec raises [UnicodeError]. *)
Record interp : Type := {
  int_max_str_digits : nat;
  str_hash : string → N;
  idna_non_ascii : string → option string
}.

Definition default_interp : interp :=
  {| int_max_str_digits := 4300;
     str_hash := λ _, 0%N;
     idna_non_ascii := λ _, None |}.

Definition str_digits_check_threshold : nat := 640.

Definition exceeds_digit_limit (py : interp) (digits : nat) : bool :=
  (str_digits_check_threshold <? digits)%nat
  && (0 <? int_max_str_digits py)%nat
  && (int_max_str_digits py <? digits)%nat.

(** [os.environ] is a mapping from names to strings. *)
Definition environ_get (env : gmap string string) (key : string)
    (default : value) : value :=
  match env !! key with
  | Some s => VStr s
  | None => default
  end.

Definition code (c : ascii) : N := N_of_ascii c.

(** Characters [int] skips around the literal. *)
Definition is_space (c : ascii) : bool :=
  match code c with
  | 9 | 10 | 11 | 12 | 13 | 32 | 133 | 160 => true
  | _ => false
  end%N.

Definition digit_value (c : ascii) : option Z :=
  let n := Z.of_N (code c) in
  if (48 <=? n) && (n <=? 57) then Some (n - 48) else None.

Fixpoint lstrip (s : string) : string :=
  match s with
  | String c r => if is_space c then lstrip r else s
  | EmptyString => EmptyString
  end.

(** What the digit scanner saw last. *)
Inductive prev : Type := PStart | PDigit | PUnderscore.

Definition scan_end (p : prev) (acc : Z) (n : nat) (rest : string)
    : option (Z * nat * string) :=
  match p with
  | PDigit => Some (acc, n, rest)
  | PStart | PUnderscore => None
  end.

(** Digits in base 10, single underscores allowed between digits.  Returns
    the value, the number of digits and the unread rest. *)
Fixpoint scan (p : prev) (acc : Z) (n : nat) (s : string)
    : option (Z * nat * string) :=
  match s with
  | String c r =>
      match digit_value c with
      | Some d => scan PDigit (10 * acc + d) (S n) r
      | None =>
          if Ascii.eqb c "_"%char
          then match p with
               | PDigit => scan PUnderscore acc n r
               | PStart | PUnderscore => None
               end
          else scan_end p acc n s
      end
  | EmptyString => scan_end p acc n EmptyString
  end.

Definition split_sign (s : string) : Z * string :=
  match s with
  | String c r =>
      if Ascii.eqb c "+"%char then (1, r)
      else if Ascii.eqb c "-"%char then (-1, r)
      else (1, s)
  | EmptyString => (1, s)
  end.

(** [int(s)] for a string [s]. *)
Definition int_of_str (py : interp) (s : string) : result exn Z :=
  let '(sign, body) := split_sign (lstrip s) in
  match scan PStart 0 0 body with
  | Some (v, digits, rest) =>
      if exceeds_digit_limit py digits
      then Raise (ValueError_max_str_digits digits)
      else match lstrip rest with
           | EmptyString => Ok (sign * v)
           | String _ _ => Raise (ValueError_invalid_literal s)
           end
  | None => Raise (ValueError_invalid_literal s)
  end.

(** [int(x)] *)
Definition int (py : interp) (x : value) : result exn Z :=
  match x with
  | VInt n => Ok n
  | VStr s => int_of_str py s
  end.

(** [str(n)] for an integer [n]. *)
Definition str (n : Z) : string := pretty n.

(** Number of decimal digits of [n]. *)
Definition num_digits (n : Z) : nat := String.length (pretty (Z.abs_N n)).

(** *** Methods of [str] *)

(** [s.lower()]: the letters A-Z and the capital letters of Latin-1. *)
Definition lower_char (c : ascii) : ascii :=
  let n := code c in
  if ((65 <=? n) && (n <=? 90)
      || (192 <=? n) && (n <=? 222) && negb (n =? 215))%N
  then ascii_of_N (n + 32) else c.

Fixpoint lower (s : string) : string :=
  match s with
  | EmptyString => EmptyString
  | String c r => String (lower_char c) (lower r)
  end.

(** The characters [str.strip] removes: those with [c.isspace()]. *)
Definition isspace (c : ascii) : bool :=
  match code c with
  | 9 | 10 | 11 | 12 | 13 | 28 | 29 | 30 | 31 | 32 | 133 | 160 => true
  | _ => false
  end%N.

Fixpoint lstrip_space (s : string) : string :=
  match s with
  | String c r => if isspace c then lstrip_space r else s
  | EmptyString => EmptyString
  end.

Fixpoint rstrip_space (s : string) : string :=
  match s with
  | EmptyString => EmptyString
  | String c r =>
      match rstrip_space r with
      | EmptyString => if isspace c then EmptyString else String c EmptyString
      | String _ _ as r' => String c r'
      end
  end.

(** [s.strip()] *)
Definition strip (s : string) : string := rstrip_space (lstrip_space s).

(** [s.partition(sep)], for a separator of one character: the text before
    the first [sep], and the rest from [sep] on. *)
Fixpoint partition (sep : ascii) (s : string) : string * string :=
  match s with
  | EmptyString => (EmptyString, EmptyString)
  | String c r =>
      if Ascii.eqb c sep then (EmptyString, s)
      else let '(before, rest) := partition sep r in (String c before, rest)
  end.

(** [s.split(sep)], for a separator of one character. *)
Fixpoint split (sep : ascii) (s : string) : list string :=
  match s with
  | EmptyString => [EmptyString]
  | String c r =>
      if Ascii.eqb c sep then EmptyString :: split sep r
      else match split sep r with
           | first :: others => String c first :: others
           | [] => [String c EmptyString]
           end
  end.

(** [s.removesuffix(suffix)] when [s.endswith(suffix)]. *)
Fixpoint strip_suffix (suffix s : string) : option string :=
  if String.eqb s suffix then Some EmptyString
  else match s with
       | EmptyString => None
       | String c r => String c <$> strip_suffix suffix r
       end.

(** *** The [idna] codec *)

(** The labels of an ASCII name: all but the last have 1 to 63 characters,
    the last may be empty. *)
Fixpoint labels_ok (labels : list string) : bool :=
  match labels with
  | [] => true
  | [last] => (String.length last <? 64)%nat
  | label :: rest =>
      (0 <? String.length label)%nat && (String.length label <? 64)%nat
      && labels_ok rest
  end.

(** [name.encode("idna").decode("ascii")]; [None] for [UnicodeError]. *)
Definition idna_encode (py : interp) (name : string) : option string :=
  match name with
  | EmptyString => Some EmptyString
  | String _ _ =>
      if all_ascii name
      then if labels_ok (split "." name) then Some name else None
      else idna_non_ascii py name
  end.

(** *** Sets of strings *)

Fixpoint insert_by_hash (py : interp) (x : string) (l : list string) : list string :=
  match l with
  | [] => [x]
  | y :: r =>
      if (str_hash py x <? str_hash py y)%N then x :: l
      else y :: insert_by_hash py x r
  end.

(** [list(s)] for a set [s] holding the strings of [members] (which has no
    repetitions): the members in the order of their hashes. *)
Definition set_list (py : interp) (members : list string) : list string :=
  fold_right (insert_by_hash py) [] members.

(** *** Processes *)

(** How a script run ends: it is blocked in the server loop of [app.run]
    on a socket it has bound itself, or on a socket it has inherited from a
    parent process, or the process has ended with an exit status and
    whatever it wrote to standard error. *)
Inductive process : Type :=
| Serving (host : string) (port : Z)
| ServingInherited (fd : Z)
| Exited (status : Z) (stderr : string).

Definition traceback (e : exn) : string :=
  "Traceback (most recent call last):" +:+ String "010"%char (exn_name e).

(** An exception nobody caught: traceback on standard error, status 1. *)
Definition uncaught (e : exn) : process := Exited 1 (traceback e).

End Py.

(** ** JSON documents, [json.dumps] and [json.loads] *)

Module Json.

(** A Python [dict] with string keys is a list of items in insertion order,
    without repeated keys. *)
Inductive value : Type :=
| Null
| Bool (b : bool)
| Num (n : Z)
| Str (s : string)
| Arr (items : list value)
| Obj (members : list (string * value)).

Definition dquote : ascii := ascii_of_N 34.
Definition backslash : ascii := ascii_of_N 92.
Definition newline : ascii := ascii_of_N 10.

(** *** Encoding *)

Definition hex_digit (n : N) : ascii :=
  match n with
  | 0 => "0" | 1 => "1" | 2 => "2" | 3 => "3" | 4 => "4" | 5 => "5"
  | 6 => "6" | 7 => "7" | 8 => "8" | 9 => "9" | 10 => "a" | 11 => "b"
  | 12 => "c" | 13 => "d" | 14 => "e" | _ => "f"
  end%N%char.

(** One character of a string literal, with [ensure_ascii=True]. *)
Definition escape_char (c : ascii) : string :=
  let n := N_of_ascii c in
  match n with
  | 34 => String backslash (String dquote EmptyString)
  | 92 => String backslash (String backslash EmptyString)
  | 10 => String backslash "n"
  | 13 => String backslash "r"
  | 9 => String backslash "t"
  | 8 => String backslash "b"
  | 12 => String backslash "f"
  | _ =>
      if ((32 <=? n) && (n <=? 126))%N then String c EmptyString
      else String backslash
             (String "u" (String "0" (String "0"
               (String (hex_digit (n / 16)) (String (hex_digit (n mod 16)) EmptyString)))))
  end%N.

Fixpoint escape (s : string) : string :=
  match s with
  | EmptyString => EmptyString
  | String c r => escape_char c +:+ escape r
  end.

Definition encode_str (s : string) : string :=
  String dquote (escape s +:+ String dquote EmptyString).

(** The keyword arguments of [json.dumps] that matter here. *)
Record format : Type := {
  indent : option nat;
  item_separator : string;
  key_separator : string;
  sort_keys : bool
}.

Fixpoint spaces (n : nat) : string :=
  match n with
  | O => EmptyString
  | S n => String " " (spaces n)
  end.

(** ["\n"] and the indentation of nesting depth [level]; nothing when
    [indent] is [None]. *)
Definition newline_indent (f : format) (level : nat) : string :=
  match indent f with
  | Some w => String newline (spaces (w * level))
  | None => EmptyString
  end.

Fixpoint join (sep : string) (l : list string) : string :=
  match l with
  | [] => EmptyString
  | [x] => x
  | x :: r => x +:+ sep +:+ join sep r
  end.

(** Items sorted by key, as [sort_keys=True] does. *)
Fixpoint insert_by_key (kv : string * string) (l : list (string * string))
    : list (string * string) :=
  match l with
  | [] => [kv]
  | kv' :: r =>
      if String.leb (fst kv) (fst kv') then kv :: l
      else kv' :: insert_by_key kv r
  end.

Definition sort_by_key (l : list (string * string)) : list (string * string) :=
  foldr insert_by_key [] l.

Fixpoint encode (f : format) (level : nat) (v : value) : string :=
  match v with
  | Null => "null"
  | Bool true => "true"
  | Bool false => "false"
  | Num n => Py.str n
  | Str s => encode_str s
  | Arr [] => "[]"
  | Arr items =>
      "[" +:+ newline_indent f (S level)
      +:+ join (item_separator f +:+ newline_indent f (S level))
            (map (encode f (S level)) items)
      +:+ newline_indent f level +:+ "]"
  | Obj [] => "{}"
  | Obj members =>
      let encoded := map (λ kv, (fst kv, encode f (S level) (snd kv))) members in
      let ordered := if sort_keys f then sort_by_key encoded else encoded in
      "{" +:+ newline_indent f (S level)
      +:+ join (item_separator f +:+ newline_indent f (S level))
            (map (λ kv, encode_str (fst kv) +:+ key_separator f +:+ snd kv) ordered)
      +:+ newline_indent f level +:+ "}"
  end.

(** [json.dumps(obj, **kwargs)] *)
Definition dumps (f : format) (v : value) : string := encode f 0 v.

(** *** Decoding *)

Definition is_ws (c : ascii) : bool :=
  match N_of_ascii c with
  | 32 | 9 | 10 | 13 => true
  | _ => false
  end%N.

Fixpoint skip_ws (s : string) : string :=
  match s with
  | String c r => if is_ws c then skip_ws r else s
  | EmptyString => EmptyString
  end.

Definition hex_value (c : ascii) : option N :=
  let n := N_of_ascii c in
  if ((48 <=? n) && (n <=? 57))%N then Some (n - 48)%N
  else if ((97 <=? n) && (n <=? 102))%N then Some (n - 87)%N
  else if ((65 <=? n) && (n <=? 70))%N then Some (n - 55)%N
  else None.

(** The four hex digits after a backslash-u; code points above U+00FF are
    outside the strings modelled here and give [None]. *)
Definition unicode_escape (s : string) : option (ascii * string) :=
  match s with
  | String a (String b (String c (String d r))) =>
      ha ← hex_value a; hb ← hex_value b; hc ← hex_value c; hd ← hex_value d;
      let n := (((ha * 16 + hb) * 16 + hc) * 16 + hd)%N in
      if (n <? 256)%N then Some (ascii_of_N n, r) else None
  | _ => None
  end.

(** The characters of a string literal after its opening quote. *)
Fixpoint parse_chars (fuel : nat) (s : string) : option (string * string) :=
  match fuel with
  | O => None
  | S fuel =>
      match s with
      | EmptyString => None
      | String c r =>
          if Ascii.eqb c dquote then Some (EmptyString, r)
          else if Ascii.eqb c backslash then
            match r with
            | EmptyString => None
            | String e r' =>
                let continue (ch : ascii) (rest : string) :=
                  '(t, rest') ← parse_chars fuel rest; Some (String ch t, rest') in
                match N_of_ascii e with
                | 34 => continue dquote r'
                | 92 => continue backslash r'
                | 47 => continue "/"%char r'
                | 98 => continue (ascii_of_N 8) r'
                | 102 => continue (ascii_of_N 12) r'
                | 110 => continue (ascii_of_N 10) r'
                | 114 => continue (ascii_of_N 13) r'
                | 116 => continue (ascii_of_N 9) r'
                | 117 => '(ch, r'') ← unicode_escape r'; continue ch r''
                | _ => None
                end%N
            end
          else if (N_of_ascii c <? 32)%N then None
          else '(t, rest) ← parse_chars fuel r; Some (String c t, rest)
      end
  end.

Fixpoint parse_digits (acc : Z) (s : string) : Z * string :=
  match s with
  | String c r =>
      match Py.digit_value c with
      | Some d => parse_digits (10 * acc + d) r
      | None => (acc, s)
      end
  | EmptyString => (acc, s)
  end.

Definition starts_fraction (s : string) : bool :=
  match s with
  | String c _ => Ascii.eqb c "." || Ascii.eqb c "e" || Ascii.eqb c "E"
  | EmptyString => false
  end%char.

(** An integer literal: [0] or a non-zero digit followed by digits.  Numbers
    with a fraction or an exponent are floats and give [None]. *)
Definition parse_nat (s : string) : option (Z * string) :=
  match s with
  | String c r =>
      match Py.digit_value c with
      | Some 0 => if starts_fraction r then None else Some (0, r)
      | Some d =>
          let '(n, rest) := parse_digits d r in
          if starts_fraction rest then None else Some (n, rest)
      | None => None
      end
  | EmptyString => None
  end.

(** A later item with the same key replaces the value of the earlier one. *)
Fixpoint dict_set (k : string) (v : value) (d : list (string * value))
    : list (string * value) :=
  match d with
  | [] => [(k, v)]
  | (k', v') :: r =>
      if String.eqb k k' then (k, v) :: r else (k', v') :: dict_set k v r
  end.

Section decoder.
(** The decoder of nested documents, one level down. *)
Variable parse_value : string → option (value * string).

(** Items of an array, positioned at the start of an item. *)
Fixpoint parse_items (fuel : nat) (acc : list value) (s : string)
    : option (list value * string) :=
  match fuel with
  | O => None
  | S fuel =>
      '(v, r) ← parse_value s;
      match skip_ws r with
      | String c r' =>
          if Ascii.eqb c "," then parse_items fuel (acc ++ [v]) (skip_ws r')
          else if Ascii.eqb c "]" then Some (acc ++ [v], r')
          else None
      | EmptyString => None
      end%char
  end.

(** Members of an object, positioned at the opening quote of a key. *)
Fixpoint parse_members (fuel : nat) (acc : list (string * value)) (s : string)
    : option (list (string * value) * string) :=
  match fuel with
  | O => None
  | S fuel =>
      match s with
      | String q r0 =>
          if negb (Ascii.eqb q dquote) then None else
          '(k, r1) ← parse_chars (S (String.length r0)) r0;
          match skip_ws r1 with
          | String c r2 =>
              if negb (Ascii.eqb c ":") then None else
              '(v, r3) ← parse_value (skip_ws r2);
              match skip_ws r3 with
              | String d r4 =>
                  if Ascii.eqb d "," then parse_members fuel (dict_set k v acc) (skip_ws r4)
                  else if Ascii.eqb d "}" then Some (dict_set k v acc, r4)
                  else None
              | EmptyString => None
              end
          | EmptyString => None
          end
      | EmptyString => None
      end%char
  end.
End decoder.

(** One value at the start of [s] (no leading whitespace). *)
Fixpoint parse_value (fuel : nat) (s : string) : option (value * string) :=
  match fuel with
  | O => None
  | S fuel =>
      match s with
      | EmptyString => None
      | String c r =>
          if Ascii.eqb c dquote then
            '(t, rest) ← parse_chars (S (String.length r)) r; Some (Str t, rest)
          else if Ascii.eqb c "{" then
            match skip_ws r with
            | String d r' =>
                if Ascii.eqb d "}" then Some (Obj [], r')
                else '(ms, rest) ← parse_members (parse_value fuel) (String.length s) []
                                     (String d r');
                     Some (Obj ms, rest)
            | EmptyString => None
            end
          else if Ascii.eqb c "[" then
            match skip_ws r with
            | String d r' =>
                if Ascii.eqb d "]" then Some (Arr [], r')
                else '(vs, rest) ← parse_items (parse_value fuel) (String.length s) []
                                     (String d r');
                     Some (Arr vs, rest)
            | EmptyString => None
            end
          else if Ascii.eqb c "-" then
            '(n, rest) ← parse_nat r; Some (Num (- n), rest)
          else
            match strip_prefix "null" s, strip_prefix "true" s, strip_prefix "false" s with
            | Some rest, _, _ => Some (Null, rest)
            | _, Some rest, _ => Some (Bool true, rest)
            | _, _, Some rest => Some (Bool false, rest)
            | _, _, _ => '(n, rest) ← parse_nat s; Some (Num n, rest)
            end
      end%char
  end.

(** [json.loads(s)]; [None] stands for [JSONDecodeError] and for documents
    outside the model (floats, code points above U+00FF). *)
Definition loads (s : string) : option value :=
  '(v, rest) ← parse_value (S (String.length s)) (skip_ws s);
  match skip_ws rest with
  | EmptyString => Some v
  | String _ _ => None
  end.

End Json.

(** ** Werkzeug: responses, HTTP exceptions, URL binding and matching *)

Module Werkzeug.

(** *** Responses *)

Record response : Type := {
  status : Z;
  headers : list (string * string);
  data : string
}.

Fixpoint header (name : string) (hs : list (string * string)) : option string :=
  match hs with
  | [] => None
  | (k, v) :: r => if String.eqb k name then Some v else header name r
  end.

(** [headers[name] = value]: the header gets the new value where it stands,
    or is added at the end. *)
Fixpoint set_header (name value : string) (hs : list (string * string))
    : list (string * string) :=
  match hs with
  | [] => [(name, value)]
  | (k, v) :: r =>
      if String.eqb k name then (k, value) :: r else (k, v) :: set_header name value r
  end.

(** Bytes of the UTF-8 encoding. *)
Fixpoint utf8_length (s : string) : nat :=
  match s with
  | EmptyString => O
  | String c r => ((if (N_of_ascii c <? 128)%N then 1 else 2) + utf8_length r)%nat
  end.

Fixpoint ends_with (suffix s : string) : bool :=
  String.eqb suffix s
  || match s with
     | EmptyString => false
     | String _ r => ends_with suffix r
     end.

Definition charset_mimetypes : list string :=
  [ "application/ecmascript"; "application/javascript"; "application/sql";
    "application/xml"; "application/xml-dtd";
    "application/xml-external-parsed-entity" ].

Definition get_content_type (mimetype : string) : string :=
  if String.prefix "text/" mimetype || mem mimetype charset_mimetypes
     || ends_with "+xml" mimetype
  then mimetype +:+ "; charset=utf-8"
  else mimetype.

(** [Response(body, status, headers, mimetype=...)]: the headers the caller
    gives come first; the content type is set from [mimetype], or from the
    default [text/plain] when neither is given; the length of the body is
    set last. *)
Definition Response (body : string) (code : Z) (given : list (string * string))
    (mimetype : option string) : response :=
  let typed :=
    match mimetype, header "Content-Type" given with
    | Some m, _ => set_header "Content-Type" (get_content_type m) given
    | None, Some _ => given
    | None, None => set_header "Content-Type" (get_content_type "text/plain") given
    end in
  {| status := code;
     headers := set_header "Content-Length" (Py.str (Z.of_nat (utf8_length body))) typed;
     data := body |}.

(** *** HTTP exceptions *)

Inductive http_exception : Type :=
| BadHost
| WebsocketMismatch
| NotFound
| MethodNotAllowed (valid_methods : list string)
| RequestRedirect (new_url : string)
| InternalServerError.

Definition code (e : http_exception) : Z :=
  match e with
  | BadHost | WebsocketMismatch => 400
  | NotFound => 404
  | MethodNotAllowed _ => 405
  | RequestRedirect _ => 308
  | InternalServerError => 500
  end.

Definition name (e : http_exception) : string :=
  match e with
  | BadHost | WebsocketMismatch => "Bad Request"
  | NotFound => "Not Found"
  | MethodNotAllowed _ => "Method Not Allowed"
  | RequestRedirect _ => "Permanent Redirect"
  | InternalServerError => "Internal Server Error"
  end.

Definition description (e : http_exception) : string :=
  match e with
  | BadHost | WebsocketMismatch =>
      "The browser (or proxy) sent a request that this server could not understand."
  | NotFound =>
      "The requested URL was not found on the server. If you entered the URL manually please check your spelling and try again."
  | MethodNotAllowed _ => "The method is not allowed for the requested URL."
  | RequestRedirect _ => "This URL has moved permanently."
  | InternalServerError =>
      "The server encountered an internal error and was unable to complete your request. Either the server is overloaded or there is an error in the application."
  end.

Definition nl : string := String (ascii_of_N 10) EmptyString.

Definition escape_html_char (c : ascii) : string :=
  match N_of_ascii c with
  | 38 => "&amp;"
  | 60 => "&lt;"
  | 62 => "&gt;"
  | 39 => "&#39;"
  | 34 => "&#34;"
  | _ => String c EmptyString
  end%N.

Fixpoint escape_html (s : string) : string :=
  match s with
  | EmptyString => EmptyString
  | String c r => escape_html_char c +:+ escape_html r
  end.

Definition get_body (e : http_exception) : string :=
  "<!doctype html>" +:+ nl +:+ "<html lang=en>" +:+ nl
  +:+ "<title>" +:+ Py.str (code e) +:+ " " +:+ name e +:+ "</title>" +:+ nl
  +:+ "<h1>" +:+ name e +:+ "</h1>" +:+ nl
  +:+ "<p>" +:+ description e +:+ "</p>" +:+ nl.

Definition get_headers (e : http_exception) : list (string * string) :=
  ("Content-Type", "text/html; charset=utf-8")
  :: match e with
     | MethodNotAllowed valid_methods => [("Allow", Json.join ", " valid_methods)]
     | _ => []
     end.

(** [werkzeug.utils.redirect(location, code)] *)
Definition redirect (location : string) (code : Z) : response :=
  let q := String Json.dquote EmptyString in
  let rv :=
    Response
      ("<!doctype html>" +:+ nl +:+ "<html lang=en>" +:+ nl
       +:+ "<title>Redirecting...</title>" +:+ nl
       +:+ "<h1>Redirecting...</h1>" +:+ nl
       +:+ "<p>You should be redirected automatically to the target URL: <a href="
       +:+ q +:+ escape_html location +:+ q +:+ ">" +:+ escape_html location
       +:+ "</a>. If not, click the link." +:+ nl)
      code [] (Some "text/html") in
  {| status := status rv;
     headers := set_header "Location" location (headers rv);
     data := data rv |}.

(** The response an HTTP exception turns into. *)
Definition get_response (e : http_exception) : response :=
  match e with
  | RequestRedirect new_url => redirect new_url (code e)
  | _ => Response (get_body e) (code e) (get_headers e) None
  end.

(** *** URL rules *)

(** A rule is literal text, optionally followed by one [<path:name>]
    converter that takes the rest of the URL.  Methods are a set, kept as a
    list without repetitions. *)
Record rule : Type := {
  rule_text : string;
  path_converter : option string;
  methods : list string;
  endpoint : string;
  provide_automatic_options : bool;
  websocket : bool
}.

Definition view_args : Type := list (string * string).

Fixpoint no_newline (s : string) : bool :=
  match s with
  | EmptyString => true
  | String c r => negb (Ascii.eqb c (ascii_of_N 10)) && no_newline r
  end.

(** The [path] converter matches the regular expression [[^/].*?] up to the
    end of the URL: a first character other than a slash, then anything
    without a line feed. *)
Definition path_converter_accepts (s : string) : bool :=
  match s with
  | EmptyString => false
  | String c r => negb (Ascii.eqb c "/") && no_newline r
  end.

(** Does the whole of [path] match the rule? *)
Definition rule_match (r : rule) (path : string) : option view_args :=
  match strip_prefix (rule_text r) path, path_converter r with
  | Some EmptyString, None => Some []
  | Some rest, Some arg =>
      if path_converter_accepts rest then Some [(arg, rest)] else None
  | _, _ => None
  end.

(** A rule whose text ends in a slash and has no converter. *)
Definition is_branch (r : rule) : bool :=
  match path_converter r with
  | None => ends_with "/" (rule_text r)
  | Some _ => false
  end.

Fixpoint lstrip_slash (s : string) : string :=
  match s with
  | String "/" r => lstrip_slash r
  | _ => s
  end%char.

(** The path the matcher works on: one leading slash, unless the path is
    empty. *)
Definition path_part (path_info : string) : string :=
  match path_info with
  | EmptyString => EmptyString
  | String _ _ => String "/" (lstrip_slash path_info)
  end.

(** The path with every run of slashes merged into one slash. *)
Fixpoint merge_slashes (s : string) : string :=
  match s with
  | EmptyString => EmptyString
  | String c r =>
      match r with
      | String d _ =>
          if Ascii.eqb c "/" && Ascii.eqb d "/" then merge_slashes r
          else String c (merge_slashes r)
      | EmptyString => s
      end
  end.

(** [have.update(new)] on sets. *)
Fixpoint add_methods (have new : list string) : list string :=
  match new with
  | [] => have
  | m :: r => add_methods (if mem m have then have else have ++ [m]) r
  end.

(** What one pass over the rules gives: a rule and its arguments, the need
    for a trailing slash, or nothing, with the methods of the rules that
    match the path only ([have_match_for]) and whether a rule matched path
    and method but not the kind of connection ([websocket_mismatch]). *)
Inductive outcome : Type :=
| Hit (r : rule) (args : view_args)
| SlashRequired
| Miss (have_match_for : list string) (websocket_mismatch : bool).

(** The first rule that matches path, method and kind of connection. *)
Fixpoint find_rule (rules : list rule) (method : string) (ws : bool) (path : string)
    (have : list string) (mismatch : bool)
    : (rule * view_args) + (list string * bool) :=
  match rules with
  | [] => inr (have, mismatch)
  | r :: rest =>
      match rule_match r path with
      | Some args =>
          if negb (mem method (methods r))
          then find_rule rest method ws path (add_methods have (methods r)) mismatch
          else if negb (Bool.eqb (websocket r) ws)
          then find_rule rest method ws path have true
          else inl (r, args)
      | None => find_rule rest method ws path have mismatch
      end
  end.

(** With strict slashes, a path that lacks the trailing slash of a branch
    rule is redirected to it. *)
Definition slash_required (rules : list rule) (method : string) (ws : bool)
    (path : string) : bool :=
  existsb (λ r, is_branch r && String.eqb (rule_text r) (path +:+ "/")
                && Bool.eqb (websocket r) ws && mem method (methods r)) rules.

Definition match_path (rules : list rule) (method : string) (ws : bool)
    (path : string) (have : list string) (mismatch : bool) : outcome :=
  match find_rule rules method ws path have mismatch with
  | inl (r, args) => Hit r args
  | inr (have', mismatch') =>
      if slash_required rules method ws path then SlashRequired
      else Miss have' mismatch'
  end.

(** *** URL binding *)

(** What the URL adapter is bound to: scheme, host and query string of the
    request.  The application is mounted at the root. *)
Record adapter : Type := {
  url_scheme : string;
  server_name : string;
  query_args : string
}.

(** [get_host]: the host the request names, without the port when it is the
    default port of the scheme. *)
Definition get_host (scheme host : string) : string :=
  let without port schemes :=
    if mem scheme schemes then Py.strip_suffix port host else None in
  match without ":80" ["http"; "ws"] with
  | Some h => h
  | None => default host (without ":443" ["https"; "wss"])
  end.

(** Does the request ask to switch to the WebSocket protocol?  [connection]
    and [upgrade] are the values of [HTTP_CONNECTION] and [HTTP_UPGRADE]. *)
Definition is_upgrade (connection upgrade : string) : bool :=
  existsb (λ v, String.eqb (Py.strip v) "upgrade")
    (Py.split "," (Py.lower connection))
  && String.eqb (Py.lower upgrade) "websocket".

(** [Map.bind]: the host name, without the port, has to pass the [idna]
    codec. *)
Definition bind (py : Py.interp) (server_name url_scheme query_args : string)
    : result http_exception adapter :=
  let '(host_name, port) := Py.partition ":" (Py.lower server_name) in
  match Py.idna_encode py host_name with
  | Some encoded =>
      Ok {| url_scheme := url_scheme;
            server_name := encoded +:+ port;
            query_args := query_args |}
  | None => Raise BadHost
  end.

(** [Map.bind_to_environ]: a request that asks for the WebSocket protocol
    is bound with the scheme [ws] or [wss]. *)
Definition bind_to_environ (py : Py.interp)
    (scheme host connection upgrade query_string : string)
    : result http_exception adapter :=
  let wsgi_server_name := Py.lower (get_host scheme host) in
  let scheme' :=
    if is_upgrade connection upgrade
    then (if String.eqb scheme "https" then "wss" else "ws")
    else scheme in
  bind py wsgi_server_name scheme' query_string.

(** [MapAdapter.websocket] *)
Definition is_websocket (ad : adapter) : bool := mem (url_scheme ad) ["ws"; "wss"].

(** *** Redirect targets *)

Definition hex_upper (n : N) : ascii :=
  match n with
  | 0 => "0" | 1 => "1" | 2 => "2" | 3 => "3" | 4 => "4" | 5 => "5"
  | 6 => "6" | 7 => "7" | 8 => "8" | 9 => "9" | 10 => "A" | 11 => "B"
  | 12 => "C" | 13 => "D" | 14 => "E" | _ => "F"
  end%N%char.

Definition percent (byte : N) : string :=
  String "%" (String (hex_upper (byte / 16)) (String (hex_upper (byte mod 16)) EmptyString)).

Definition is_alnum (n : N) : bool :=
  ((48 <=? n) && (n <=? 57) || (65 <=? n) && (n <=? 90) || (97 <=? n) && (n <=? 122))%N.

(** [quote(path, safe="!$&'()*+,/:;=@")] *)
Definition quote_char (c : ascii) : string :=
  let n := N_of_ascii c in
  if is_alnum n
     || existsb (N.eqb n)
          [95; 46; 45; 126; 33; 36; 38; 39; 40; 41; 42; 43; 44; 47; 58; 59; 61; 64]%N
  then String c EmptyString
  else if (n <? 128)%N then percent n
  else percent (192 + n / 64) +:+ percent (128 + n mod 64).

Fixpoint quote (s : string) : string :=
  match s with
  | EmptyString => EmptyString
  | String c r => quote_char c +:+ quote r
  end.

(** The schemes [urllib.parse] writes with a double slash even when the
    host is empty. *)
Definition uses_netloc : list string :=
  [ "ftp"; "http"; "gopher"; "nntp"; "telnet"; "imap"; "wais"; "file"; "mms";
    "https"; "shttp"; "snews"; "prospero"; "rtsp"; "rtspu"; "rsync"; "svn";
    "svn+ssh"; "sftp"; "nfs"; "git"; "git+ssh"; "ws"; "wss" ].

(** [MapAdapter.make_redirect_url(quote(path))] *)
Definition make_redirect_url (ad : adapter) (path : string) : string :=
  let scheme := match url_scheme ad with EmptyString => "http" | s => s end in
  let url := "/" +:+ lstrip_slash (quote path) in
  let url :=
    match server_name ad with
    | EmptyString => if mem scheme uses_netloc then "//" +:+ url else url
    | netloc => "//" +:+ netloc +:+ url
    end in
  scheme +:+ ":" +:+ url
  +:+ match query_args ad with
      | EmptyString => EmptyString
      | q => "?" +:+ q
      end.

(** *** [MapAdapter.match] *)

(** A second pass, over the path with its slashes merged, is made when the
    first finds nothing; a rule found then means a redirect.  When no rule
    matches, the methods of the rules that matched the path decide between
    405, 400 and 404; they are listed in the order in which the set of them
    is iterated. *)
Definition match_ (py : Py.interp) (rules : list rule) (ad : adapter)
    (method path_info : string) : result http_exception (rule * view_args) :=
  let ws := is_websocket ad in
  let path := path_part path_info in
  match match_path rules method ws path [] false with
  | Hit r args => Ok (r, args)
  | SlashRequired => Raise (RequestRedirect (make_redirect_url ad (path +:+ "/")))
  | Miss have mismatch =>
      let merged := merge_slashes path in
      match match_path rules method ws merged have mismatch with
      | Hit _ _ => Raise (RequestRedirect (make_redirect_url ad merged))
      | SlashRequired => Raise (RequestRedirect (make_redirect_url ad (merged +:+ "/")))
      | Miss ((_ :: _) as valid_methods) _ =>
          Raise (MethodNotAllowed (Py.set_list py valid_methods))
      | Miss [] true => Raise WebsocketMismatch
      | Miss [] false => Raise NotFound
      end
  end.

(** [MapAdapter.allowed_methods] *)
Definition allowed_methods (py : Py.interp) (rules : list rule) (ad : adapter)
    (path_info : string) : list string :=
  match match_ py rules ad "--" path_info with
  | Raise (MethodNotAllowed valid_methods) => valid_methods
  | _ => []
  end.

End Werkzeug.

(** ** Flask: application object, views, dispatch, development server *)

Module Flask.

(** What the WSGI server hands over for one request in [environ]:
    [REQUEST_METHOD], [wsgi.url_scheme], the host ([HTTP_HOST], or the
    server's own name and port when the request names none), [PATH_INFO] and
    [QUERY_STRING] as Werkzeug decodes them, the other [HTTP_*] variables
    under their [environ] keys, and the body. *)
Record request : Type := {
  method : string;
  scheme : string;
  host : string;
  path : string;
  query_string : string;
  req_headers : list (string * string);
  body : string
}.

(** [environ.get(key, "")] for an [HTTP_*] key. *)
Definition environ_get (req : request) (key : string) : string :=
  default EmptyString (Werkzeug.header key (req_headers req)).

(** The module-level state a view can read and write while it runs: the
    interpreter the process runs on, the configuration of the application
    and the process environment.  [debug] is [app.debug]; Flask sets it when
    the application is created and the script never assigns it. *)
Record state : Type := {
  python : Py.interp;
  debug : bool;
  environ : gmap string string
}.

(** A view function gets the arguments of the matched rule; it returns a
    response or raises an HTTP exception, and leaves a state behind. *)
Definition view : Type :=
  Werkzeug.view_args → state → result Werkzeug.http_exception Werkzeug.response * state.

(** A view that leaves the state as it found it. *)
Definition pure_view (v : view) : Prop :=
  ∀ args st, snd (v args st) = st.

Record app : Type := {
  import_name : string;
  url_map : list Werkzeug.rule;
  view_functions : list (string * view)
}.

Fixpoint lookup_view (endpoint : string) (vs : list (string * view)) : option view :=
  match vs with
  | [] => None
  | (k, v) :: r => if String.eqb k endpoint then Some v else lookup_view endpoint r
  end.

(** [app.add_url_rule(rule, endpoint, view_func)] with the default methods:
    [GET], to which the rule adds [HEAD] and Flask adds [OPTIONS]. *)
Definition add_url_rule (a : app) (rule_text : string) (converter : option string)
    (endpoint : string) (view_func : view) : app :=
  {| import_name := import_name a;
     url_map := url_map a ++
       [ {| Werkzeug.rule_text := rule_text;
            Werkzeug.path_converter := converter;
            Werkzeug.methods := ["GET"; "HEAD"; "OPTIONS"];
            Werkzeug.endpoint := endpoint;
            Werkzeug.provide_automatic_options := true;
            Werkzeug.websocket := false |} ];
     view_functions := view_functions a ++ [(endpoint, view_func)] |}.

(** [app.send_static_file(filename)].  The repository has no [static]
    folder next to [app.py], so no file is ever found. *)
Definition send_static_file : view :=
  λ _ st, (Raise Werkzeug.NotFound, st).

(** [Flask(import_name)]: the static folder defaults to ["static"], for
    which the constructor registers the rule [/static/<path:filename>]. *)
Definition Flask (import_name : string) : app :=
  add_url_rule
    {| import_name := import_name; url_map := []; view_functions := [] |}
    "/static/" (Some "filename") "static" send_static_file.

(** [@app.route(rule)] on a view function named [endpoint]; the rule has no
    converter. *)
Definition route (a : app) (rule : string) (endpoint : string) (view_func : view) : app :=
  add_url_rule a rule None endpoint view_func.

(** [get_debug_flag()]: what [Flask(import_name)] sets [app.debug] to. *)
Definition get_debug_flag (env : gmap string string) : bool :=
  match env !! "FLASK_DEBUG" with
  | Some (String _ _ as val) => negb (mem (Py.lower val) ["0"; "false"; "no"])
  | Some EmptyString | None => false
  end.

(** The arguments [jsonify] passes to [json.dumps]: indented in debug mode,
    compact otherwise; keys sorted. *)
Definition dump_args (debug : bool) : Json.format :=
  if debug
  then {| Json.indent := Some 2%nat; Json.item_separator := ",";
          Json.key_separator := ": "; Json.sort_keys := true |}
  else {| Json.indent := None; Json.item_separator := ",";
          Json.key_separator := ":"; Json.sort_keys := true |}.

(** [jsonify(obj)] *)
Definition jsonify (obj : Json.value)
    : state → result Werkzeug.http_exception Werkzeug.response * state :=
  λ st,
    (Ok (Werkzeug.Response (Json.dumps (dump_args (debug st)) obj +:+ Werkzeug.nl)
           200 [] (Some "application/json")),
     st).

(** [c.upper()] where the result is again a single character of Latin-1.
    The three characters left alone (U+00B5, U+00DF, U+00FF) have capitals
    that are no ASCII letters. *)
Definition upper_char (c : ascii) : ascii :=
  let n := N_of_ascii c in
  if ((97 <=? n) && (n <=? 122)
      || (224 <=? n) && (n <=? 254) && negb (n =? 247))%N
  then ascii_of_N (n - 32) else c.

(** [str.upper] on the request method. *)
Fixpoint upper (s : string) : string :=
  match s with
  | EmptyString => EmptyString
  | String c r => String (upper_char c) (upper r)
  end.

(** [app.create_url_adapter(request)] *)
Definition create_url_adapter (py : Py.interp) (req : request)
    : result Werkzeug.http_exception Werkzeug.adapter :=
  Werkzeug.bind_to_environ py (scheme req) (host req)
    (environ_get req "HTTP_CONNECTION") (environ_get req "HTTP_UPGRADE")
    (query_string req).

(** [app.make_default_options_response()]: an empty response that lists the
    methods of the URL in [Allow]. *)
Definition make_default_options_response (py : Py.interp) (a : app)
    (ad : Werkzeug.adapter) (req : request) : Werkzeug.response :=
  let content_type := [("Content-Type", "text/html; charset=utf-8")] in
  {| Werkzeug.status := 200;
     Werkzeug.headers :=
       Werkzeug.set_header "Content-Length" "0"
         match Werkzeug.allowed_methods py (url_map a) ad (path req) with
         | [] => content_type
         | methods => Werkzeug.set_header "Allow" (Json.join ", " methods) content_type
         end;
     Werkzeug.data := EmptyString |}.

(** [app.full_dispatch_request()]: bind and match the URL, call the view,
    turn HTTP exceptions into their responses. *)
Definition full_dispatch_request (a : app) (req : request) (st : state)
    : Werkzeug.response * state :=
  let m := upper (method req) in
  match create_url_adapter (python st) req with
  | Raise e => (Werkzeug.get_response e, st)
  | Ok ad =>
      match Werkzeug.match_ (python st) (url_map a) ad m (path req) with
      | Raise e => (Werkzeug.get_response e, st)
      | Ok (r, args) =>
          if Werkzeug.provide_automatic_options r && String.eqb m "OPTIONS"
          then (make_default_options_response (python st) a ad req, st)
          else match lookup_view (Werkzeug.endpoint r) (view_functions a) with
               | None => (Werkzeug.get_response Werkzeug.InternalServerError, st)
               | Some view_func =>
                   match view_func args st with
                   | (Ok rv, st') => (rv, st')
                   | (Raise e, st') => (Werkzeug.get_response e, st')
                   end
               end
      end
  end.

(** [app.wsgi_app(environ, start_response)]: when [REQUEST_METHOD] is
    [HEAD], the response goes out with its headers and without its body. *)
Definition wsgi_app (a : app) (req : request) (st : state)
    : Werkzeug.response * state :=
  let '(rv, st') := full_dispatch_request a req st in
  (if String.eqb (method req) "HEAD"
   then {| Werkzeug.status := Werkzeug.status rv;
           Werkzeug.headers := Werkzeug.headers rv;
           Werkzeug.data := EmptyString |}
   else rv,
   st').

(** The requests of a run of the service, one after the other. *)
Fixpoint serve (a : app) (reqs : list request) (st : state)
    : list Werkzeug.response * state :=
  match reqs with
  | [] => ([], st)
  | req :: rest =>
      let '(rv, st1) := wsgi_app a req st in
      let '(rvs, st2) := serve a rest st1 in
      (rv :: rvs, st2)
  end.

(** *** The development server *)

(** What [socket.getaddrinfo] makes of a port number outside 0..65535: a
    port, no service ([socket.gaierror]), or a number that does not fit a C
    [long] ([OverflowError]). *)
Inductive service : Type :=
| Port (p : Z)
| NoService
| TooLarge.

(** The operating system as the server sees it:
    - [bind_error]: binding a listening socket to an address and listening
      on it either works or fails with an [errno] and its message;
    - [getaddrinfo_port]: how the C library resolves a port number outside
      0..65535 (glibc reduces 70000 to 4464 and knows no service -1);
    - [ephemeral_port]: the port the system picks for a socket bound to
      port 0;
    - [EADDRINUSE] and [darwin]: [errno.EADDRINUSE] and whether
      [sys.platform] is ["darwin"];
    - [fromfd_error]: what [socket.fromfd] raises for a file descriptor, if
      anything. *)
Record os : Type := {
  bind_error : string → Z → option (Z * string);
  getaddrinfo_port : Z → service;
  ephemeral_port : Z;
  EADDRINUSE : Z;
  darwin : bool;
  fromfd_error : Z → option Py.exn
}.

(** [socket.bind((host, port))] *)
Definition socket_bind (o : os) (host : string) (port : Z) : result Py.exn unit :=
  if (port <? 0) || (65535 <? port) then Raise Py.OverflowError_port
  else match bind_error o host port with
       | Some (errno, strerror) => Raise (Py.OSError errno strerror)
       | None => Ok ()
       end.

(** [socket.getsockname()] after [bind]: port 0 has become the port the
    system picked. *)
Definition getsockname (o : os) (host : string) (port : Z) : string * Z :=
  (host, if port =? 0 then ephemeral_port o else port).

(** [werkzeug.serving.get_sockaddr(host, port, family)]: the address
    [getaddrinfo] resolves to, whose port is a 16-bit number, or host and
    port as they are when it knows no such service. *)
Definition get_sockaddr (o : os) (host : string) (port : Z)
    : result Py.exn (string * Z) :=
  if (0 <=? port) && (port <=? 65535) then Ok (host, port)
  else match getaddrinfo_port o port with
       | Port p => Ok (host, p `mod` 65536)
       | NoService => Ok (host, port)
       | TooLarge => Raise Py.OverflowError_c_long
       end.

(** The socket the server loop runs on: bound by this process, or taken
    over from the parent process of the reloader. *)
Inductive served : Type :=
| Bound (host : string) (port : Z)
| Inherited (fd : Z).

(** What the server prints when the address is in use; [port] is the port
    [run_simple] was called with. *)
Definition address_in_use_hint (o : os) (port : Z) : string :=
  "Port " +:+ Py.str port
  +:+ " is in use by another program. Either identify and stop that program, or start the server with a different port."
  +:+ Werkzeug.nl
  +:+ (if darwin o && (port =? 5000)
       then "On macOS, try disabling the 'AirPlay Receiver' service from System Preferences -> General -> AirDrop & Handoff."
            +:+ Werkzeug.nl
       else EmptyString).

(** [BaseWSGIServer(host, port, app, fd=fd)].  Without a file descriptor the
    server binds the resolved address; an [OSError] on the way is caught,
    its message is printed and the process exits with status 1. *)
Definition make_server (o : os) (host : string) (port : Z) (fd : option Z)
    : result Py.exn served :=
  '(host', port') ← get_sockaddr o host port;
  match fd with
  | None =>
      match socket_bind o host' port' with
      | Ok _ => let '(h, p) := getsockname o host' port' in Ok (Bound h p)
      | Raise (Py.OSError errno strerror) =>
          Raise (Py.SystemExit 1
                   (strerror +:+ Werkzeug.nl
                    +:+ (if errno =? EADDRINUSE o then address_in_use_hint o port
                         else EmptyString)))
      | Raise e => Raise e
      end
  | Some fd =>
      match fromfd_error o fd with
      | Some e => Raise e
      | None => Ok (Inherited fd)
      end
  end.

Definition env_is (env : gmap string string) (key value : string) : bool :=
  match env !! key with
  | Some v => String.eqb v value
  | None => false
  end.

(** [is_running_from_reloader()] *)
Definition is_running_from_reloader (env : gmap string string) : bool :=
  env_is env "WERKZEUG_RUN_MAIN" "true".

(** [werkzeug.serving.run_simple(hostname, port, application)]: the child
    process of the reloader takes the socket its parent has bound, named in
    [WERKZEUG_SERVER_FD]; every other process binds its own. *)
Definition run_simple (py : Py.interp) (o : os) (env : gmap string string)
    (host : string) (port : Z) : result Py.exn served :=
  if is_running_from_reloader env
  then match env !! "WERKZEUG_SERVER_FD" with
       | None => Raise (Py.KeyError "WERKZEUG_SERVER_FD")
       | Some s => fd ← Py.int_of_str py s; make_server o host port (Some fd)
       end
  else make_server o host port None.

(** [app.run(host, port)].  Under the [flask] command line
    ([FLASK_RUN_FROM_CLI] is ["true"]) the call is ignored and returns at
    once: [None].  Otherwise the development server is started, and the call
    does not return while it serves. *)
Definition run (py : Py.interp) (o : os) (env : gmap string string) (a : app)
    (host : string) (port : Z) : result Py.exn (option served) :=
  if env_is env "FLASK_RUN_FROM_CLI" "true" then Ok None
  else s ← run_simple py o env host port; Ok (Some s).

End Flask.

(** ** The script [app.py] *)

Module App.

(** [app = Flask(__name__)] *)
Definition app0 : Flask.app := Flask.Flask "__main__".

(** [def hello_confidential_world(): return jsonify({"message": ...})] *)
Definition hello_confidential_world : Flask.view :=
  λ _, Flask.jsonify
         (Json.Obj [("message", Json.Str "Hello from a Confidential GKE container!")]).

(** [@app.route('/')] *)
Definition app : Flask.app :=
  Flask.route app0 "/" "hello_confidential_world" hello_confidential_world.

(** The state of a process that has imported the module, on interpreter
    [py] and with environment [env]: [Flask(__name__)] has taken [app.debug]
    from the environment. *)
Definition startup (py : Py.interp) (env : gmap string string) : Flask.state :=
  {| Flask.python := py;
     Flask.debug := Flask.get_debug_flag env;
     Flask.environ := env |}.

(** [int(os.environ.get('PORT', 5000))] *)
Definition port (py : Py.interp) (env : gmap string string) : result Py.exn Z :=
  Py.int py (Py.environ_get env "PORT" (Py.VInt 5000)).

(** The [if __name__ == '__main__':] block:
    [app.run(host='0.0.0.0', port=int(os.environ.get('PORT', 5000)))] *)
Definition main (py : Py.interp) (o : Flask.os) (env : gmap string string)
    : result Py.exn (option Flask.served) :=
  p ← port py env;
  Flask.run py o env app "0.0.0.0" p.

(** [python app.py] as a process: it serves, or it has ended, with status 0
    when the script ran to its end, with the status of [sys.exit], or with
    status 1 and a traceback after any other exception. *)
Definition script (py : Py.interp) (o : Flask.os) (env : gmap string string)
    : Py.process :=
  match main py o env with
  | Ok (Some (Flask.Bound host p)) => Py.Serving host p
  | Ok (Some (Flask.Inherited fd)) => Py.ServingInherited fd
  | Ok None => Py.Exited 0 EmptyString
  | Raise (Py.SystemExit status printed) => Py.Exited status printed
  | Raise e => Py.uncaught e
  end.

(** The document the view returns. *)
Definition greeting : Json.value :=
  Json.Obj [("message", Json.Str "Hello from a Confidential GKE container!")].

End App.

(** ** Predicates used in the statements *)

(** A text of whitespace only, as [int] sees whitespace. *)
Fixpoint blank (s : string) : bool :=
  match s with
  | EmptyString => true
  | String c r => Py.is_space c && blank r
  end.

(** A text of JSON whitespace only. *)
Fixpoint all_ws (s : string) : bool :=
  match s with
  | EmptyString => true
  | String c r => Json.is_ws c && all_ws r
  end.

(** The host a request names is valid when its name, in lower case and
    without the port, passes the [idna] codec; for an ASCII name that is:
    every label but the last has 1 to 63 characters and the last has at most
    63. *)
Definition valid_host (py : Py.interp) (host : string) : bool :=
  match Py.idna_encode py (fst (Py.partition ":" (Py.lower host))) with
  | Some _ => true
  | None => false
  end.

(** A request for a WebSocket connection: one that asks to upgrade to the
    WebSocket protocol ([Connection: upgrade] with [Upgrade: websocket]), or
    that the server hands over with the scheme [ws] or [wss]. *)
Definition websocket_request (req : Flask.request) : bool :=
  Werkzeug.is_upgrade (Flask.environ_get req "HTTP_CONNECTION")
    (Flask.environ_get req "HTTP_UPGRADE")
  || mem (Flask.scheme req) ["ws"; "wss"].

(** An ordinary HTTP request: a valid host, no WebSocket connection. *)
Definition ordinary (py : Py.interp) (req : Flask.request) : bool :=
  valid_host py (Flask.host req) && negb (websocket_request req).

(** The methods of the routes of the application. *)
Definition route_methods : list string := ["GET"; "HEAD"; "OPTIONS"].

(** The two rules of the URL map of the application: the one
    [Flask(__name__)] registers for static files and the one of
    [@app.route('/')]. *)
Definition static_rule : Werkzeug.rule :=
  {| Werkzeug.rule_text := "/static/";
     Werkzeug.path_converter := Some "filename";
     Werkzeug.methods := route_methods;
     Werkzeug.endpoint := "static";
     Werkzeug.provide_automatic_options := true;
     Werkzeug.websocket := false |}.

Definition root_rule : Werkzeug.rule :=
  {| Werkzeug.rule_text := "/";
     Werkzeug.path_converter := None;
     Werkzeug.methods := route_methods;
     Werkzeug.endpoint := "hello_confidential_world";
     Werkzeug.provide_automatic_options := true;
     Werkzeug.websocket := false |}.

(** A path under [/static/] that names a file: [/static/] followed by a name
    that does not start with a slash and has no line feed after its first
    character. *)
Definition static_path (p : string) : bool :=
  match strip_prefix "/static/" p with
  | Some name => Werkzeug.path_converter_accepts name
  | None => false
  end.

(** The status the service answers a request with, by host, kind of
    connection, method and path:
    - 400 for an invalid host;
    - at ["/"] (also written with more slashes): 405 for a method other than
      [GET], [HEAD] and [OPTIONS], else 400 for a WebSocket request, else
      200;
    - at [/static/<name>]: 405 for another method, else 400 for a WebSocket
      request, else 200 for [OPTIONS] and 404 for [GET] and [HEAD], as
      there are no static files;
    - at a path that becomes [/static/<name>] when its runs of slashes are
      merged: 405 for another method, else 400 for a WebSocket request, else
      the redirect 308;
    - at the empty path: the redirect 308 to ["/"] for an ordinary request
      with one of the three methods;
    - 404 everywhere else. *)
Definition expected_status (py : Py.interp) (req : Flask.request) : Z :=
  let p := Werkzeug.path_part (Flask.path req) in
  let m := Flask.upper (Flask.method req) in
  let at_route (found : Z) : Z :=
    if negb (mem m route_methods) then 405
    else if websocket_request req then 400
    else found in
  if negb (valid_host py (Flask.host req)) then 400
  else if String.eqb p "/" then at_route 200
  else if static_path p then at_route (if String.eqb m "OPTIONS" then 200 else 404)
  else if String.eqb p EmptyString
  then (if mem m route_methods && negb (websocket_request req) then 308 else 404)
  else if static_path (Werkzeug.merge_slashes p) then at_route 308
  else 404.

(** A path that leads to no route: not ["/"] (however many slashes), not
    empty, and not under [/static/], also not once its slashes are merged. *)
Definition unrouted (path : string) : bool :=
  let p := Werkzeug.path_part path in
  negb (String.eqb p "/") && negb (String.eqb p EmptyString)
  && negb (static_path p) && negb (static_path (Werkzeug.merge_slashes p)).

(** A text without slashes: one segment of a path. *)
Fixpoint no_slash (s : string) : bool :=
  match s with
  | EmptyString => true
  | String c r => negb (Ascii.eqb c "/") && no_slash r
  end.

(** The request with another method. *)
Definition with_method (m : string) (req : Flask.request) : Flask.request :=
  {| Flask.method := m; Flask.scheme := Flask.scheme req; Flask.host := Flask.host req;
     Flask.path := Flask.path req; Flask.query_string := Flask.query_string req;
     Flask.req_headers := Flask.req_headers req; Flask.body := Flask.body req |}.

(** A process started directly: not by the [flask] command line and not as
    the child process of the reloader. *)
Definition started_directly (env : gmap string string) : bool :=
  negb (Flask.env_is env "FLASK_RUN_FROM_CLI" "true")
  && negb (Flask.is_running_from_reloader env).

(** ** Sample inputs for the instances of the theorems *)

Definition sample_request (m p : string) : Flask.request :=
  {| Flask.method := m; Flask.scheme := "http"; Flask.host := "localhost:8080";
     Flask.path := p; Flask.query_string := "utm=1";
     Flask.req_headers := [("HTTP_ACCEPT", "*/*")]; Flask.body := EmptyString |}.

Definition sample_state : Flask.state :=
  {| Flask.python := Py.default_interp; Flask.debug := false;
     Flask.environ := {[ "PORT" := "8080" ]} |}.

(** A request that differs from [sample_request "GET" "/"] in everything but
    method and path. *)
Definition other_request : Flask.request :=
  {| Flask.method := "GET"; Flask.scheme := "https"; Flask.host := "example.org";
     Flask.path := "/"; Flask.query_string := "name=world";
     Flask.req_headers := [("HTTP_X_REQUESTED_WITH", "XMLHttpRequest")];
     Flask.body := "ignored" |}.

(** A request that asks to switch to the WebSocket protocol. *)
Definition websocket_request_to (m p : string) : Flask.request :=
  {| Flask.method := m; Flask.scheme := "http"; Flask.host := "localhost:8080";
     Flask.path := p; Flask.query_string := EmptyString;
     Flask.req_headers := [("HTTP_CONNECTION", "Upgrade"); ("HTTP_UPGRADE", "websocket")];
     Flask.body := EmptyString |}.

(** A request whose host has an empty label. *)
Definition bad_host_request (m p : string) : Flask.request :=
  {| Flask.method := m; Flask.scheme := "http"; Flask.host := "a..b";
     Flask.path := p; Flask.query_string := EmptyString;
     Flask.req_headers := []; Flask.body := EmptyString |}.

(** An interpreter whose hashes put the three methods in another order. *)
Definition seeded_interp : Py.interp :=
  {| Py.int_max_str_digits := 4300;
     Py.str_hash := λ s, N.of_nat (String.length s);
     Py.idna_non_ascii := λ _, None |}.

(** How the GNU C library resolves a port number: the number is cut to 32
    bits; a negative result is no service, any other is cut to 16 bits by
    the socket address. *)
Definition glibc_port (n : Z) : Flask.service :=
  if (n <? - 2 ^ 63) || (2 ^ 63 <=? n) then Flask.TooLarge
  else let v := (n + 2 ^ 31) `mod` 2 ^ 32 - 2 ^ 31 in
       if v <? 0 then Flask.NoService else Flask.Port v.

(** An operating system on which every address can be bound. *)
Definition free_os : Flask.os :=
  {| Flask.bind_error := λ _ _, None;
     Flask.getaddrinfo_port := glibc_port;
     Flask.ephemeral_port := 49152;
     Flask.EADDRINUSE := 98;
     Flask.darwin := false;
     Flask.fromfd_error := λ _, Some (Py.OSError 9 "Bad file descriptor") |}.

(** An operating system on which every port is taken ([EADDRINUSE]). *)
Definition busy_os : Flask.os :=
  {| Flask.bind_error := λ _ _, Some (98, "Address already in use");
     Flask.getaddrinfo_port := glibc_port;
     Flask.ephemeral_port := 49152;
     Flask.EADDRINUSE := 98;
     Flask.darwin := false;
     Flask.fromfd_error := λ _, Some (Py.OSError 9 "Bad file descriptor") |}.

(** * Proofs *)

(** ** [int] and [str] *)

Section int_str.

Lemma digit_value_pretty_N_char (d : N) :
  (d < 10)%N → Py.digit_value (pretty_N_char d) = Some (Z.of_N d).
Proof.
  intros Hd.
  assert (d = 0 ∨ d = 1 ∨ d = 2 ∨ d = 3 ∨ d = 4 ∨ d = 5 ∨ d = 6 ∨ d = 7
          ∨ d = 8 ∨ d = 9)%N as Hcases by lia.
  repeat (destruct Hcases as [-> | Hcases]; [reflexivity |]).
  by subst.
Qed.

Lemma digit_not_space c d : Py.digit_value c = Some d → Py.is_space c = false.
Proof.
  destruct c as [[] [] [] [] [] [] [] []]; first [discriminate | reflexivity].
Qed.

Lemma digit_not_sign c d :
  Py.digit_value c = Some d → Ascii.eqb c "+" = false ∧ Ascii.eqb c "-" = false.
Proof.
  destruct c as [[] [] [] [] [] [] [] []]; first [discriminate | by split].
Qed.

Lemma pretty_N_go_length x s :
  String.length (pretty_N_go x s)
  = (String.length (pretty_N_go x "") + String.length s)%nat.
Proof.
  revert s. induction (N.lt_wf_0 x) as [x _ IH]; intros s.
  destruct (decide (x = 0%N)) as [-> | Hx].
  - by rewrite !pretty_N_go_0.
  - rewrite !(pretty_N_go_step x) by lia.
    assert (x `div` 10 < x)%N as Hlt by (apply N.div_lt; lia).
    rewrite (IH _ Hlt), (IH _ Hlt (String _ "")).
    simpl. lia.
Qed.

Lemma pretty_N_go_head x s :
  (0 < x)%N →
  ∃ c r d, pretty_N_go x s = String c r ∧ Py.digit_value c = Some d.
Proof.
  revert s. induction (N.lt_wf_0 x) as [x _ IH]; intros s Hx.
  rewrite pretty_N_go_step by done.
  destruct (decide (x `div` 10 = 0)%N) as [Hq | Hq].
  - rewrite Hq, pretty_N_go_0. eexists _, _, _. split; [done |].
    apply digit_value_pretty_N_char. by apply N.mod_lt.
  - apply IH; [apply N.div_lt; lia |]. destruct (x `div` 10)%N; [done | lia].
Qed.

Lemma scan_pretty_N_go x s p acc n :
  (0 < x)%N →
  Py.scan p acc n (pretty_N_go x s)
  = Py.scan Py.PDigit
      (acc * 10 ^ Z.of_nat (String.length (pretty_N_go x "")) + Z.of_N x)
      (n + String.length (pretty_N_go x "")) s.
Proof.
  revert s p acc n. induction (N.lt_wf_0 x) as [x _ IH]; intros s p acc n Hx.
  rewrite !(pretty_N_go_step x) by done.
  pose proof (N.mod_lt x 10 ltac:(done)) as Hmod.
  pose proof (N.div_mod x 10 ltac:(done)) as Hdiv.
  destruct (decide (x `div` 10 = 0)%N) as [Hq | Hq].
  - rewrite Hq, !pretty_N_go_0. simpl.
    rewrite digit_value_pretty_N_char by done.
    f_equal; lia.
  - rewrite IH by (try apply N.div_lt; lia).
    rewrite (pretty_N_go_length _ (String _ "")). simpl.
    rewrite digit_value_pretty_N_char by done.
    rewrite Nat2Z.inj_add, Z.pow_add_r by lia.
    f_equal; lia.
Qed.

Lemma int_of_str_minus py s :
  Py.int_of_str py (String "-" s)
  = match Py.scan Py.PStart 0 0 s with
    | Some (v, digits, rest) =>
        if Py.exceeds_digit_limit py digits
        then Raise (Py.ValueError_max_str_digits digits)
        else match Py.lstrip rest with
             | EmptyString => Ok (- v)
             | String _ _ => Raise (Py.ValueError_invalid_literal (String "-" s))
             end
    | None => Raise (Py.ValueError_invalid_literal (String "-" s))
    end.
Proof.
  unfold Py.int_of_str.
  change (Py.split_sign (Py.lstrip (String "-" s))) with ((-1), s).
  cbv beta iota. destruct (Py.scan _ _ _ s) as [[[v digits] rest] |]; [| done].
  destruct (Py.exceeds_digit_limit py digits); [done |].
  destruct (Py.lstrip rest); [| done]. f_equal; lia.
Qed.

(** [int(str(n)) == n], as long as [n] has no more digits than the
    interpreter converts. *)
Lemma int_of_str_str py (n : Z) :
  Py.exceeds_digit_limit py (Py.num_digits n) = false →
  Py.int_of_str py (Py.str n) = Ok n.
Proof.
  unfold Py.num_digits, Py.str. intros Hlimit.
  assert (∀ x : positive,
    Py.scan Py.PStart 0 0 (pretty (N.pos x))
      = Some (Z.pos x, String.length (pretty (N.pos x)), EmptyString)
    ∧ Py.lstrip (pretty (N.pos x)) = pretty (N.pos x)
    ∧ Py.split_sign (pretty (N.pos x)) = (1, pretty (N.pos x))) as Hpos.
  { intros x. unfold pretty, pretty_N. rewrite decide_False by done.
    destruct (pretty_N_go_head (N.pos x) "" ltac:(done)) as (c & r & d & Hs & Hd).
    split; [| split].
    - rewrite scan_pretty_N_go by done. simpl. done.
    - rewrite Hs. simpl. by rewrite (digit_not_space _ _ Hd).
    - rewrite Hs. simpl. by destruct (digit_not_sign _ _ Hd) as [-> ->]. }
  destruct n as [| x | x]; simpl in Hlimit.
  - reflexivity.
  - destruct (Hpos x) as (Hscan & Hstrip & Hsign).
    change (pretty (Z.pos x)) with (pretty (N.pos x)).
    unfold Py.int_of_str. rewrite Hstrip, Hsign, Hscan, Hlimit. simpl. done.
  - destruct (Hpos x) as (Hscan & Hstrip & Hsign).
    change (pretty (Z.neg x)) with (String "-" (pretty (N.pos x))).
    rewrite int_of_str_minus, Hscan, Hlimit. done.
Qed.

End int_str.

(** ** Texts *)

Section texts.

Lemma append_assoc (s t u : string) : (s +:+ t) +:+ u = s +:+ (t +:+ u).
Proof.
  induction s as [| c s IH]; [reflexivity |].
  change (String c ((s +:+ t) +:+ u) = String c (s +:+ (t +:+ u))).
  by rewrite IH.
Qed.

Lemma length_append (s t : string) :
  String.length (s +:+ t) = (String.length s + String.length t)%nat.
Proof.
  induction s as [| c s IH]; [reflexivity |].
  change (S (String.length (s +:+ t)) = S (String.length s + String.length t)).
  by rewrite IH.
Qed.

Lemma append_nil_inv (s t : string) : s +:+ t = EmptyString → s = EmptyString ∧ t = EmptyString.
Proof. destruct s; [done |]. discriminate. Qed.

Lemma strip_prefix_app p s r : strip_prefix p s = Some r → s = p +:+ r.
Proof.
  revert s. induction p as [| a p IH]; intros [| b s]; simpl; try done.
  - by intros [= <-].
  - by intros [= <-].
  - destruct (Ascii.eqb_spec a b) as [-> |]; [| done].
    intros H. by rewrite (IH _ H).
Qed.

Lemma lower_char_idemp c : Py.lower_char (Py.lower_char c) = Py.lower_char c.
Proof. destruct c as [[] [] [] [] [] [] [] []]; reflexivity. Qed.

Lemma lower_idemp s : Py.lower (Py.lower s) = Py.lower s.
Proof.
  induction s as [| c s IH]; [done |].
  cbn [Py.lower]. by rewrite lower_char_idemp, IH.
Qed.

Lemma lower_append s t : Py.lower (s +:+ t) = Py.lower s +:+ Py.lower t.
Proof.
  induction s as [| c s IH]; [done |].
  change (Py.lower (String c (s +:+ t))
          = String (Py.lower_char c) (Py.lower s +:+ Py.lower t)).
  cbn [Py.lower]. by rewrite IH.
Qed.

Lemma strip_suffix_app suffix s t :
  Py.strip_suffix suffix s = Some t → s = t +:+ suffix.
Proof.
  revert t. induction s as [| c s IH]; intros t; cbn [Py.strip_suffix].
  - destruct (String.eqb_spec EmptyString suffix) as [<- |]; [| done].
    by intros [= <-].
  - destruct (String.eqb_spec (String c s) suffix) as [<- |].
    + by intros [= <-].
    + destruct (Py.strip_suffix suffix s) as [t' |]; [| done].
      intros [= <-]. by rewrite (IH t' eq_refl).
Qed.

(** The text before the first colon does not change when a port is added
    at the end. *)
Lemma partition_colon_app t u :
  fst (Py.partition ":" (t +:+ String ":" u)) = fst (Py.partition ":" t).
Proof.
  induction t as [| c t IH]; [done |].
  change (fst (Py.partition ":" (String c (t +:+ String ":" u)))
          = fst (Py.partition ":" (String c t))).
  cbn [Py.partition]. destruct (Ascii.eqb c ":"); [done |].
  destruct (Py.partition ":" (t +:+ String ":" u)) as [b1 r1].
  destruct (Py.partition ":" t) as [b2 r2]. cbn in *. by rewrite IH.
Qed.

End texts.

(** ** The host and the kind of connection of a request *)

Section binding.

(** The name the [idna] codec gets is the text before the first colon of
    the host the request names, in lower case. *)
Lemma get_host_name scheme host :
  fst (Py.partition ":" (Py.lower (Py.lower (Werkzeug.get_host scheme host))))
  = fst (Py.partition ":" (Py.lower host)).
Proof.
  rewrite lower_idemp. unfold Werkzeug.get_host.
  destruct (mem scheme ["http"; "ws"]).
  - destruct (Py.strip_suffix ":80" host) as [h |] eqn:H80.
    + apply strip_suffix_app in H80 as ->. rewrite lower_append.
      symmetry. apply (partition_colon_app (Py.lower h) "80").
    + destruct (mem scheme ["https"; "wss"]); [| done].
      destruct (Py.strip_suffix ":443" host) as [h |] eqn:H443; [| done].
      apply strip_suffix_app in H443 as ->. rewrite lower_append.
      symmetry. apply (partition_colon_app (Py.lower h) "443").
  - destruct (mem scheme ["https"; "wss"]); [| done].
    destruct (Py.strip_suffix ":443" host) as [h |] eqn:H443; [| done].
    apply strip_suffix_app in H443 as ->. rewrite lower_append.
    symmetry. apply (partition_colon_app (Py.lower h) "443").
Qed.

(** Binding the URL adapter fails exactly for an invalid host, with
    [BadHost]; the adapter of a valid host is one for WebSocket connections
    exactly for a WebSocket request. *)
Lemma create_url_adapter_cases py req :
  match Flask.create_url_adapter py req with
  | Ok ad =>
      valid_host py (Flask.host req) = true
      ∧ Werkzeug.is_websocket ad = websocket_request req
  | Raise e => valid_host py (Flask.host req) = false ∧ e = Werkzeug.BadHost
  end.
Proof.
  unfold Flask.create_url_adapter, Werkzeug.bind_to_environ, Werkzeug.bind, valid_host.
  pose proof (get_host_name (Flask.scheme req) (Flask.host req)) as Hname.
  destruct (Py.partition ":" (Py.lower (Py.lower (Werkzeug.get_host _ _))))
    as [host_name port].
  cbn [fst] in Hname. rewrite <- Hname.
  destruct (Py.idna_encode py host_name) as [encoded |]; [| done].
  split; [done |].
  unfold Werkzeug.is_websocket, websocket_request. cbn [Werkzeug.url_scheme].
  destruct (Werkzeug.is_upgrade _ _); [| done].
  by destruct (String.eqb (Flask.scheme req) "https").
Qed.

End binding.

(** ** Sets of strings *)

Section sets.

Lemma insert_by_hash_perm py x l : Permutation (Py.insert_by_hash py x l) (x :: l).
Proof.
  induction l as [| y l IH]; cbn [Py.insert_by_hash]; [done |].
  destruct (_ <? _)%N; [done |].
  rewrite IH. apply perm_swap.
Qed.

(** Whatever the hashes, [list(s)] has the members of the set, each once. *)
Lemma set_list_perm py l : Permutation (Py.set_list py l) l.
Proof.
  induction l as [| x l IH]; [done |].
  cbn [Py.set_list fold_right]. fold (Py.set_list py l).
  rewrite insert_by_hash_perm. by constructor.
Qed.

End sets.

(** ** The URL map of the application *)

Example url_map_rules : Flask.url_map App.app = [static_rule; root_rule].
Proof. reflexivity. Qed.

Section matching.
Variables (m : string) (ws : bool).

Lemma static_rule_match p :
  Werkzeug.rule_match static_rule p
  = match strip_prefix "/static/" p with
    | Some name =>
        if Werkzeug.path_converter_accepts name then Some [("filename", name)] else None
    | None => None
    end.
Proof.
  unfold Werkzeug.rule_match. cbn [Werkzeug.rule_text Werkzeug.path_converter static_rule].
  by destruct (strip_prefix "/static/" p) as [[| c r] |].
Qed.

Lemma root_rule_match p :
  Werkzeug.rule_match root_rule p = if String.eqb p "/" then Some [] else None.
Proof.
  unfold Werkzeug.rule_match. cbn [Werkzeug.rule_text Werkzeug.path_converter root_rule].
  destruct p as [| c [| d r]]; [done | |];
    destruct c as [[] [] [] [] [] [] [] []]; reflexivity.
Qed.

Lemma static_path_not_root p : static_path p = true → String.eqb p "/" = false.
Proof.
  unfold static_path.
  destruct (strip_prefix "/static/" p) as [name |] eqn:Hp; [| done].
  apply strip_prefix_app in Hp as ->. by destruct name.
Qed.

(** One pass over the two rules. *)
Lemma app_find_rule p have mismatch :
  Werkzeug.find_rule [static_rule; root_rule] m ws p have mismatch
  = match Werkzeug.rule_match static_rule p, Werkzeug.rule_match root_rule p with
    | Some args, _ =>
        if negb (mem m route_methods) then inr (Werkzeug.add_methods have route_methods, mismatch)
        else if ws then inr (have, true) else inl (static_rule, args)
    | None, Some args =>
        if negb (mem m route_methods) then inr (Werkzeug.add_methods have route_methods, mismatch)
        else if ws then inr (have, true) else inl (root_rule, args)
    | None, None => inr (have, mismatch)
    end.
Proof.
  cbn [Werkzeug.find_rule].
  change (Werkzeug.methods static_rule) with route_methods.
  change (Werkzeug.methods root_rule) with route_methods.
  change (Werkzeug.websocket static_rule) with false.
  change (Werkzeug.websocket root_rule) with false.
  rewrite static_rule_match, root_rule_match.
  destruct (strip_prefix "/static/" p) as [name |] eqn:Hp.
  - destruct (Werkzeug.path_converter_accepts name) eqn:Hname.
    + assert (String.eqb p "/" = false) as ->
        by (apply static_path_not_root; unfold static_path; by rewrite Hp).
      destruct (mem m route_methods); cbn [negb]; [| done].
      by destruct ws.
    + destruct (String.eqb p "/"); [| done].
      destruct (mem m route_methods); cbn [negb]; [| done].
      by destruct ws.
  - destruct (String.eqb p "/"); [| done].
    destruct (mem m route_methods); cbn [negb]; [| done].
    by destruct ws.
Qed.

Lemma app_slash_required p :
  Werkzeug.slash_required [static_rule; root_rule] m ws p
  = String.eqb p EmptyString && negb ws && mem m route_methods.
Proof.
  unfold Werkzeug.slash_required. cbn [existsb].
  change (Werkzeug.is_branch static_rule) with false.
  change (Werkzeug.is_branch root_rule) with true.
  change (Werkzeug.methods root_rule) with route_methods.
  change (Werkzeug.websocket root_rule) with false.
  change (Werkzeug.rule_text root_rule) with "/".
  cbn [andb orb].
  assert (String.eqb "/" (p +:+ "/") = String.eqb p EmptyString) as ->.
  { destruct p as [| c p]; [done |].
    change (String.eqb "/" (String c (p +:+ "/")) = false).
    destruct c as [[] [] [] [] [] [] [] []]; try reflexivity. by destruct p. }
  rewrite orb_false_r. by destruct ws.
Qed.

(** With a method none of the rules has, a pass that starts from the
    methods of the routes ends with them. *)
Lemma app_find_rule_other_method p mismatch :
  mem m route_methods = false →
  Werkzeug.find_rule [static_rule; root_rule] m ws p route_methods mismatch
  = inr (route_methods, mismatch).
Proof.
  intros Hm. rewrite app_find_rule, Hm. cbn [negb].
  by destruct (Werkzeug.rule_match static_rule p), (Werkzeug.rule_match root_rule p).
Qed.

End matching.

(** ** Paths *)

Section paths.

Lemma lstrip_slash_head s c r : Werkzeug.lstrip_slash s = String c r → c ≠ "/"%char.
Proof.
  induction s as [| d s IH]; [done |].
  destruct (Ascii.eqb_spec d "/") as [-> | Hd].
  - exact IH.
  - assert (Werkzeug.lstrip_slash (String d s) = String d s) as ->.
    { by destruct d as [[] [] [] [] [] [] [] []]. }
    by intros [= <- _].
Qed.

(** The path the matcher works on is empty, or a slash followed by a text
    that does not start with a slash. *)
Lemma path_part_cases path_info :
  Werkzeug.path_part path_info = EmptyString
  ∨ Werkzeug.path_part path_info = "/"
  ∨ ∃ c r, Werkzeug.path_part path_info = String "/" (String c r) ∧ c ≠ "/"%char.
Proof.
  destruct path_info as [| d s]; [by left |]. right.
  unfold Werkzeug.path_part.
  destruct (Werkzeug.lstrip_slash (String d s)) as [| c r] eqn:Hstrip; [by left |].
  right. exists c, r. split; [done |]. by eapply lstrip_slash_head.
Qed.

Lemma merge_slashes_cons c r :
  Werkzeug.merge_slashes (String c r)
  = match r with
    | String d _ =>
        if Ascii.eqb c "/" && Ascii.eqb d "/" then Werkzeug.merge_slashes r
        else String c (Werkzeug.merge_slashes r)
    | EmptyString => String c EmptyString
    end.
Proof. by destruct r. Qed.

Lemma merge_slashes_nonempty c r : Werkzeug.merge_slashes (String c r) ≠ EmptyString.
Proof.
  revert c. induction r as [| d r IH]; intros c; [done |].
  rewrite merge_slashes_cons. destruct (_ && _); [apply IH | done].
Qed.

(** Merging the slashes of a path makes neither the empty path nor ["/"]
    out of another path. *)
Lemma merge_slashes_path_part path_info :
  let p := Werkzeug.path_part path_info in
  (String.eqb (Werkzeug.merge_slashes p) EmptyString = String.eqb p EmptyString)
  ∧ (String.eqb (Werkzeug.merge_slashes p) "/" = String.eqb p "/").
Proof.
  intros p. subst p.
  destruct (path_part_cases path_info) as [-> | [-> | (c & r & -> & Hc)]]; [done.. |].
  apply Ascii.eqb_neq in Hc. rewrite merge_slashes_cons, Hc, andb_false_r.
  pose proof (merge_slashes_nonempty c r) as Hne.
  destruct (Werkzeug.merge_slashes (String c r)) as [| d t]; [done |].
  split; reflexivity.
Qed.

Lemma merge_slashes_no_slash s : no_slash s = true → Werkzeug.merge_slashes s = s.
Proof.
  induction s as [| c s IH]; [done |].
  intros [Hc Hs]%andb_true_iff. rewrite merge_slashes_cons, (IH Hs).
  apply negb_true_iff in Hc. rewrite Hc. by destruct s.
Qed.

(** A path of one segment, such as [/unknown], leads to no route. *)
Lemma single_segment_unrouted (c : ascii) (seg : string) :
  no_slash (String c seg) = true → unrouted (String "/" (String c seg)) = true.
Proof.
  intros Hseg. pose proof Hseg as [Hc Hrest]%andb_true_iff.
  apply negb_true_iff in Hc. unfold unrouted. cbv zeta.
  assert (Werkzeug.path_part (String "/" (String c seg)) = String "/" (String c seg))
    as ->.
  { cbn. destruct c as [[] [] [] [] [] [] [] []]; try done. }
  assert (Werkzeug.merge_slashes (String "/" (String c seg)) = String "/" (String c seg))
    as ->.
  { by rewrite merge_slashes_cons, Hc, andb_false_r, merge_slashes_no_slash. }
  assert (static_path (String "/" (String c seg)) = false) as ->.
  { unfold static_path.
    destruct (strip_prefix "/static/" (String "/" (String c seg))) as [name |] eqn:Hp;
      [| done].
    apply strip_prefix_app in Hp. cbn in Hp. injection Hp as -> ->.
    by cbn in Hrest. }
  reflexivity.
Qed.

End paths.

(** ** [MapAdapter.match] on the URL map of the application *)

Section app_matching.
Variables (py : Py.interp) (ad : Werkzeug.adapter) (m : string).

(** One pass of the matcher, by the path. *)
Lemma app_match_path ws p have mismatch :
  Werkzeug.match_path [static_rule; root_rule] m ws p have mismatch
  = if String.eqb p "/" || static_path p
    then (if negb (mem m route_methods)
          then Werkzeug.Miss (Werkzeug.add_methods have route_methods) mismatch
          else if ws then Werkzeug.Miss have true
          else if String.eqb p "/" then Werkzeug.Hit root_rule []
          else Werkzeug.Hit static_rule
                 [("filename", default EmptyString (strip_prefix "/static/" p))])
    else if String.eqb p EmptyString && negb ws && mem m route_methods
    then Werkzeug.SlashRequired
    else Werkzeug.Miss have mismatch.
Proof.
  unfold Werkzeug.match_path.
  rewrite app_find_rule, app_slash_required, static_rule_match, root_rule_match.
  unfold static_path.
  destruct (String.eqb_spec p "/") as [-> | Hroot].
  - cbn [strip_prefix Ascii.eqb orb]. cbv iota.
    change (strip_prefix "/static/" "/") with (@None string).
    cbv iota. cbn [orb].
    destruct (mem m route_methods); cbn [negb andb]; [| done].
    by destruct ws.
  - cbn [orb].
    destruct (strip_prefix "/static/" p) as [name |] eqn:Hp.
    + destruct (Werkzeug.path_converter_accepts name) eqn:Hname.
      * apply strip_prefix_app in Hp as ->.
        change (String.eqb ("/static/" +:+ name) EmptyString) with false.
        destruct (mem m route_methods); cbn [negb andb default]; [| done].
        by destruct ws.
      * done.
    + done.
Qed.

Lemma add_methods_route_methods :
  Werkzeug.add_methods [] route_methods = route_methods
  ∧ Werkzeug.add_methods route_methods route_methods = route_methods.
Proof. split; reflexivity. Qed.

(** The answer of the matcher, by the path the request names. *)
Lemma app_match path_info :
  let ws := Werkzeug.is_websocket ad in
  let p := Werkzeug.path_part path_info in
  let at_route (found : result Werkzeug.http_exception (Werkzeug.rule * Werkzeug.view_args)) :=
    if negb (mem m route_methods)
    then Raise (Werkzeug.MethodNotAllowed (Py.set_list py route_methods))
    else if ws then Raise Werkzeug.WebsocketMismatch
    else found in
  Werkzeug.match_ py [static_rule; root_rule] ad m path_info
  = if String.eqb p "/" then at_route (Ok (root_rule, []))
    else if static_path p
    then at_route (Ok (static_rule,
                       [("filename", default EmptyString (strip_prefix "/static/" p))]))
    else if String.eqb p EmptyString
    then (if mem m route_methods && negb ws
          then Raise (Werkzeug.RequestRedirect (Werkzeug.make_redirect_url ad "/"))
          else Raise Werkzeug.NotFound)
    else if static_path (Werkzeug.merge_slashes p)
    then at_route (Raise (Werkzeug.RequestRedirect
                            (Werkzeug.make_redirect_url ad (Werkzeug.merge_slashes p))))
    else Raise Werkzeug.NotFound.
Proof.
  intros ws p at_route. subst at_route. unfold Werkzeug.match_. fold ws. fold p.
  destruct (merge_slashes_path_part path_info) as [Hempty Hroot]. fold p in Hempty, Hroot.
  destruct add_methods_route_methods as [Hadd0 Hadd1].
  rewrite app_match_path.
  destruct (String.eqb_spec p "/") as [Hp | Hp].
  - rewrite Hp in *. clear Hp. cbn [orb].
    destruct (mem m route_methods) eqn:Hm; cbn [negb].
    + destruct ws; [| done].
      rewrite app_match_path, Hm. reflexivity.
    + rewrite Hadd0, app_match_path, Hm, Hadd1. reflexivity.
  - cbn [orb]. destruct (static_path p) eqn:Hstatic.
    + destruct (mem m route_methods) eqn:Hm; cbn [negb].
      * destruct ws; [| done].
        rewrite app_match_path, Hm, Hroot. cbn [negb andb].
        rewrite andb_false_r.
        by destruct (false || static_path (Werkzeug.merge_slashes p)).
      * rewrite Hadd0, app_match_path, Hm, Hadd1. cbn [negb andb].
        rewrite andb_false_r.
        by destruct (_ || _).
    + destruct (String.eqb_spec p EmptyString) as [Hp0 | Hp0].
      * rewrite Hp0 in *. cbn [andb].
        destruct ws, (mem m route_methods) eqn:Hm; cbn [negb andb]; try done;
          rewrite app_match_path, ?Hm; reflexivity.
      * cbn [andb]. rewrite app_match_path, Hroot, Hempty. cbn [orb andb].
        destruct (static_path (Werkzeug.merge_slashes p)); [| done].
        destruct (mem m route_methods); cbn [negb]; [| by rewrite Hadd0].
        by destruct ws.
Qed.

End app_matching.

(** ** Views that leave the state alone *)

Section pure_views.

Lemma lookup_view_pure endpoint vs v :
  Forall (λ kv, Flask.pure_view (snd kv)) vs →
  Flask.lookup_view endpoint vs = Some v → Flask.pure_view v.
Proof.
  induction 1 as [| [k v'] vs Hv _ IH]; simpl; [done |].
  destruct (String.eqb k endpoint); [| done].
  by intros [= <-].
Qed.

Variable a : Flask.app.
Hypothesis views_pure : Forall (λ kv, Flask.pure_view (snd kv)) (Flask.view_functions a).

Lemma full_dispatch_request_state req st :
  snd (Flask.full_dispatch_request a req st) = st.
Proof.
  unfold Flask.full_dispatch_request.
  destruct (Flask.create_url_adapter _ _) as [ad | e]; [| done].
  destruct (Werkzeug.match_ _ _ _ _ _) as [[r args] | e]; [| done].
  destruct (_ && _); [done |].
  destruct (Flask.lookup_view _ _) as [v |] eqn:Hv; [| done].
  pose proof (lookup_view_pure _ _ _ views_pure Hv args st) as Hpure.
  by destruct (v args st) as [[rv | e] st'].
Qed.

Lemma wsgi_app_state req st : snd (Flask.wsgi_app a req st) = st.
Proof.
  unfold Flask.wsgi_app.
  pose proof (full_dispatch_request_state req st) as H.
  by destruct (Flask.full_dispatch_request a req st).
Qed.

Lemma serve_state reqs st : snd (Flask.serve a reqs st) = st.
Proof.
  revert st. induction reqs as [| req rest IH]; intros st; simpl; [done |].
  pose proof (wsgi_app_state req st) as H1.
  destruct (Flask.wsgi_app a req st) as [rv st1]; simpl in H1; subst st1.
  specialize (IH st).
  by destruct (Flask.serve a rest st).
Qed.

(** Each request of a run is answered as if it were the only one. *)
Lemma serve_map reqs st :
  fst (Flask.serve a reqs st) = map (λ req, fst (Flask.wsgi_app a req st)) reqs.
Proof.
  induction reqs as [| req rest IH]; [done |].
  cbn [Flask.serve map].
  pose proof (wsgi_app_state req st) as Hst.
  destruct (Flask.wsgi_app a req st) as [rv st1]. simpl in Hst. subst st1.
  destruct (Flask.serve a rest st) as [rvs st2]. simpl in *. by rewrite IH.
Qed.

End pure_views.

(** ** The application of [app.py] *)

Lemma hello_confidential_world_pure : Flask.pure_view App.hello_confidential_world.
Proof. by intros args st. Qed.

Lemma app_views_pure :
  Forall (λ kv, Flask.pure_view (snd kv)) (Flask.view_functions App.app).
Proof. repeat constructor; by intros args st. Qed.

Lemma greeting_dumps_loads debug :
  Json.loads (Json.dumps (Flask.dump_args debug) App.greeting +:+ Werkzeug.nl)
  = Some App.greeting.
Proof. destruct debug; vm_compute; reflexivity. Qed.

Section dispatch.
Variables (req : Flask.request) (st : Flask.state).

(** What [wsgi_app] sends is what the dispatch returns, without the body
    for [HEAD]. *)
Lemma wsgi_app_fst a :
  fst (Flask.wsgi_app a req st)
  = let rv := fst (Flask.full_dispatch_request a req st) in
    if String.eqb (Flask.method req) "HEAD"
    then {| Werkzeug.status := Werkzeug.status rv;
            Werkzeug.headers := Werkzeug.headers rv;
            Werkzeug.data := EmptyString |}
    else rv.
Proof.
  unfold Flask.wsgi_app. by destruct (Flask.full_dispatch_request a req st).
Qed.

Lemma wsgi_app_status a :
  Werkzeug.status (fst (Flask.wsgi_app a req st))
  = Werkzeug.status (fst (Flask.full_dispatch_request a req st)).
Proof. rewrite wsgi_app_fst. cbv zeta. by destruct (String.eqb _ _). Qed.

Lemma wsgi_app_headers a :
  Werkzeug.headers (fst (Flask.wsgi_app a req st))
  = Werkzeug.headers (fst (Flask.full_dispatch_request a req st)).
Proof. rewrite wsgi_app_fst. cbv zeta. by destruct (String.eqb _ _). Qed.

Lemma set_list_route_methods_cons py :
  ∃ x l, Py.set_list py route_methods = x :: l.
Proof.
  pose proof (set_list_perm py route_methods) as Hperm.
  destruct (Py.set_list py route_methods) as [| x l]; [| by eauto].
  by apply Permutation_nil in Hperm.
Qed.

(** The response to an [OPTIONS] request at a route. *)
Lemma app_options_response ad :
  let p := Werkzeug.path_part (Flask.path req) in
  String.eqb p "/" || static_path p = true →
  Flask.make_default_options_response (Flask.python st) App.app ad req
  = {| Werkzeug.status := 200;
       Werkzeug.headers :=
         [ ("Content-Type", "text/html; charset=utf-8");
           ("Allow", Json.join ", " (Py.set_list (Flask.python st) route_methods));
           ("Content-Length", "0") ];
       Werkzeug.data := EmptyString |}.
Proof.
  intros p Hp. unfold Flask.make_default_options_response, Werkzeug.allowed_methods.
  change (Flask.url_map App.app) with [static_rule; root_rule].
  rewrite app_match. fold p.
  change (mem "--" route_methods) with false. cbn [negb].
  assert ((if String.eqb p "/"
           then Raise (Werkzeug.MethodNotAllowed (Py.set_list (Flask.python st) route_methods))
           else if static_path p
           then Raise (Werkzeug.MethodNotAllowed (Py.set_list (Flask.python st) route_methods))
           else if String.eqb p EmptyString
           then (if false && negb (Werkzeug.is_websocket ad)
                 then Raise (Werkzeug.RequestRedirect (Werkzeug.make_redirect_url ad "/"))
                 else Raise Werkzeug.NotFound)
           else if static_path (Werkzeug.merge_slashes p)
           then Raise (Werkzeug.MethodNotAllowed (Py.set_list (Flask.python st) route_methods))
           else Raise Werkzeug.NotFound)
          = (Raise (Werkzeug.MethodNotAllowed (Py.set_list (Flask.python st) route_methods))
             : result Werkzeug.http_exception (Werkzeug.rule * Werkzeug.view_args))) as ->.
  { destruct (String.eqb p "/"); [done |]. cbn [orb] in Hp. by rewrite Hp. }
  destruct (set_list_route_methods_cons (Flask.python st)) as (x & l & ->).
  reflexivity.
Qed.

(** The response of the application, by host, kind of connection, method
    and path. *)
Lemma app_dispatch :
  let py := Flask.python st in
  let m := Flask.upper (Flask.method req) in
  let p := Werkzeug.path_part (Flask.path req) in
  let at_route (found : Werkzeug.response) : Werkzeug.response :=
    if negb (mem m route_methods)
    then Werkzeug.get_response (Werkzeug.MethodNotAllowed (Py.set_list py route_methods))
    else if websocket_request req then Werkzeug.get_response Werkzeug.WebsocketMismatch
    else if String.eqb m "OPTIONS"
    then {| Werkzeug.status := 200;
            Werkzeug.headers :=
              [ ("Content-Type", "text/html; charset=utf-8");
                ("Allow", Json.join ", " (Py.set_list py route_methods));
                ("Content-Length", "0") ];
            Werkzeug.data := EmptyString |}
    else found in
  fst (Flask.full_dispatch_request App.app req st)
  = if negb (valid_host py (Flask.host req))
    then Werkzeug.get_response Werkzeug.BadHost
    else if String.eqb p "/"
    then at_route
           (Werkzeug.Response
              (Json.dumps (Flask.dump_args (Flask.debug st)) App.greeting +:+ Werkzeug.nl)
              200 [] (Some "application/json"))
    else if static_path p then at_route (Werkzeug.get_response Werkzeug.NotFound)
    else if String.eqb p EmptyString
    then (if mem m route_methods && negb (websocket_request req)
          then Werkzeug.redirect
                 (default EmptyString
                    ((λ ad, Werkzeug.make_redirect_url ad "/")
                       <$> match Flask.create_url_adapter py req with
                           | Ok ad => Some ad
                           | Raise _ => None
                           end)) 308
          else Werkzeug.get_response Werkzeug.NotFound)
    else if static_path (Werkzeug.merge_slashes p)
    then (if negb (mem m route_methods)
          then Werkzeug.get_response (Werkzeug.MethodNotAllowed (Py.set_list py route_methods))
          else if websocket_request req then Werkzeug.get_response Werkzeug.WebsocketMismatch
          else Werkzeug.redirect
                 (default EmptyString
                    ((λ ad, Werkzeug.make_redirect_url ad (Werkzeug.merge_slashes p))
                       <$> match Flask.create_url_adapter py req with
                           | Ok ad => Some ad
                           | Raise _ => None
                           end)) 308)
    else Werkzeug.get_response Werkzeug.NotFound.
Proof.
  intros py m p at_route. subst at_route. unfold Flask.full_dispatch_request.
  fold py. fold m.
  pose proof (create_url_adapter_cases py req) as Hbind.
  destruct (Flask.create_url_adapter py req) as [ad | e].
  - destruct Hbind as [-> Hws]. cbn [negb fmap option_fmap option_map default].
    change (Flask.url_map App.app) with [static_rule; root_rule].
    rewrite app_match. fold p. rewrite Hws.
    destruct (String.eqb p "/") eqn:Hroot.
    + destruct (mem m route_methods); cbn [negb fst]; [| done].
      destruct (websocket_request req); [done |].
      change (Werkzeug.provide_automatic_options root_rule) with true. cbn [andb].
      destruct (String.eqb m "OPTIONS"); [| done].
      cbn [fst]. apply app_options_response. fold p. by rewrite Hroot.
    + destruct (static_path p) eqn:Hstatic.
      * destruct (mem m route_methods); cbn [negb fst]; [| done].
        destruct (websocket_request req); [done |].
        change (Werkzeug.provide_automatic_options static_rule) with true. cbn [andb].
        destruct (String.eqb m "OPTIONS"); [| done].
        cbn [fst]. apply app_options_response. fold p. by rewrite Hroot, Hstatic.
      * destruct (String.eqb p EmptyString).
        { by destruct (mem m route_methods && negb (websocket_request req)). }
        destruct (static_path (Werkzeug.merge_slashes p)); [| done].
        destruct (mem m route_methods); cbn [negb fst]; [| done].
        by destruct (websocket_request req).
  - destruct Hbind as [-> ->]. reflexivity.
Qed.

(** The status of the response is the one of the table. *)
Lemma app_status :
  Werkzeug.status (fst (Flask.wsgi_app App.app req st))
  = expected_status (Flask.python st) req.
Proof.
  rewrite wsgi_app_status, app_dispatch. unfold expected_status. cbv zeta.
  destruct (valid_host _ _); cbn [negb]; [| done].
  destruct (String.eqb (Werkzeug.path_part _) "/").
  { destruct (mem _ route_methods); cbn [negb]; [| done].
    destruct (websocket_request req); [done |].
    by destruct (String.eqb _ "OPTIONS"). }
  destruct (static_path (Werkzeug.path_part _)).
  { destruct (mem _ route_methods); cbn [negb]; [| done].
    destruct (websocket_request req); [done |].
    by destruct (String.eqb _ "OPTIONS"). }
  destruct (String.eqb (Werkzeug.path_part _) EmptyString).
  { by destruct (mem _ route_methods && negb _). }
  destruct (static_path (Werkzeug.merge_slashes _)); [| done].
  destruct (mem _ route_methods); cbn [negb]; [| done].
  by destruct (websocket_request req).
Qed.

End dispatch.

(** ** Starting the script *)

Section startup.
Variables (py : Py.interp) (o : Flask.os) (env : gmap string string).

Lemma int_of_str_raises s e :
  Py.int_of_str py s = Raise e →
  e = Py.ValueError_invalid_literal s ∨ ∃ digits, e = Py.ValueError_max_str_digits digits.
Proof.
  unfold Py.int_of_str. destruct (Py.split_sign _) as [sign body].
  destruct (Py.scan _ _ _ _) as [[[v digits] rest] |]; [| intros [= <-]; by left].
  destruct (Py.exceeds_digit_limit _ _); [intros [= <-]; right; by eexists |].
  destruct (Py.lstrip rest); [done |]. intros [= <-]. by left.
Qed.

(** Only [int] can raise while the port is read, and what it raises is a
    [ValueError]. *)
Lemma port_raises e :
  App.port py env = Raise e →
  ∃ s, env !! "PORT" = Some s ∧ Py.int_of_str py s = Raise e.
Proof.
  unfold App.port, Py.environ_get. destruct (env !! "PORT") as [s |]; [| done].
  cbn [Py.int]. by exists s.
Qed.

Lemma script_port_raises e :
  App.port py env = Raise e →
  App.main py o env = Raise e ∧ App.script py o env = Py.Exited 1 (Py.traceback e).
Proof.
  intros Hport.
  assert (App.main py o env = Raise e) as Hmain by (unfold App.main; by rewrite Hport).
  split; [done |]. unfold App.script. rewrite Hmain.
  destruct (port_raises e Hport) as (s & _ & Hint).
  by destruct (int_of_str_raises s e Hint) as [-> | [digits ->]].
Qed.

Lemma main_run p :
  App.port py env = Ok p → App.main py o env = Flask.run py o env App.app "0.0.0.0" p.
Proof. intros Hport. unfold App.main. by rewrite Hport. Qed.

(** Under the [flask] command line [app.run] returns at once and the script
    ends. *)
Lemma script_from_cli p :
  App.port py env = Ok p →
  Flask.env_is env "FLASK_RUN_FROM_CLI" "true" = true →
  App.script py o env = Py.Exited 0 EmptyString.
Proof.
  intros Hport Hcli. unfold App.script. rewrite (main_run p Hport).
  unfold Flask.run. by rewrite Hcli.
Qed.

(** The child process of the reloader binds no socket. *)
Lemma script_reloader_child p host q :
  App.port py env = Ok p →
  Flask.is_running_from_reloader env = true →
  App.script py o env ≠ Py.Serving host q.
Proof.
  intros Hport Hchild. unfold App.script. rewrite (main_run p Hport).
  unfold Flask.run, Flask.run_simple. rewrite Hchild.
  destruct (Flask.env_is env "FLASK_RUN_FROM_CLI" "true"); [done |].
  destruct (env !! "WERKZEUG_SERVER_FD") as [s |]; [| done].
  destruct (Py.int_of_str py s) as [fd | e]; [| by destruct e].
  cbn [mbind result_bind]. unfold Flask.make_server.
  destruct (Flask.get_sockaddr o "0.0.0.0" p) as [[h r] | e]; [| by destruct e].
  cbn [mbind result_bind].
  destruct (Flask.fromfd_error o fd) as [e |]; [by destruct e | done].
Qed.

(** A process started directly resolves the address, binds it and serves;
    each step can fail. *)
Lemma script_started_directly p :
  App.port py env = Ok p →
  started_directly env = true →
  App.script py o env
  = match Flask.get_sockaddr o "0.0.0.0" p with
    | Raise _ => Py.Exited 1 (Py.traceback Py.OverflowError_c_long)
    | Ok (host, q) =>
        if (q <? 0) || (65535 <? q) then Py.Exited 1 (Py.traceback Py.OverflowError_port)
        else match Flask.bind_error o host q with
             | Some (errno, strerror) =>
                 Py.Exited 1
                   (strerror +:+ Werkzeug.nl
                    +:+ (if errno =? Flask.EADDRINUSE o then Flask.address_in_use_hint o p
                         else EmptyString))
             | None => Py.Serving host (if q =? 0 then Flask.ephemeral_port o else q)
             end
    end.
Proof.
  intros Hport [Hcli Hchild]%andb_true_iff.
  apply negb_true_iff in Hcli, Hchild.
  unfold App.script. rewrite (main_run p Hport).
  unfold Flask.run, Flask.run_simple, Flask.make_server. rewrite Hcli, Hchild.
  unfold Flask.get_sockaddr.
  destruct ((0 <=? p) && (p <=? 65535)); cbn [mbind result_bind].
  - unfold Flask.socket_bind. destruct ((p <? 0) || (65535 <? p)); [done |].
    by destruct (Flask.bind_error o "0.0.0.0" p) as [[errno strerror] |].
  - destruct (Flask.getaddrinfo_port o p) as [r | |]; cbn [mbind result_bind]; [| | done].
    + unfold Flask.socket_bind. destruct ((_ <? 0) || (65535 <? _)); [done |].
      by destruct (Flask.bind_error o "0.0.0.0" _) as [[errno strerror] |].
    + unfold Flask.socket_bind. destruct ((p <? 0) || (65535 <? p)); [done |].
      by destruct (Flask.bind_error o "0.0.0.0" p) as [[errno strerror] |].
Qed.

Lemma get_sockaddr_in_range p :
  0 ≤ p ≤ 65535 → Flask.get_sockaddr o "0.0.0.0" p = Ok ("0.0.0.0", p).
Proof.
  intros Hp. unfold Flask.get_sockaddr.
  assert ((0 <=? p) && (p <=? 65535) = true) as ->; [| done].
  apply andb_true_iff. split; apply Z.leb_le; lia.
Qed.

Lemma get_sockaddr_out_of_range p :
  p < 0 ∨ 65535 < p →
  Flask.get_sockaddr o "0.0.0.0" p
  = match Flask.getaddrinfo_port o p with
    | Flask.Port r => Ok ("0.0.0.0", r `mod` 65536)
    | Flask.NoService => Ok ("0.0.0.0", p)
    | Flask.TooLarge => Raise Py.OverflowError_c_long
    end.
Proof.
  intros Hp. unfold Flask.get_sockaddr.
  assert ((0 <=? p) && (p <=? 65535) = false) as ->; [| done].
  apply andb_false_iff. destruct Hp; [left; apply Z.leb_gt | right; apply Z.leb_gt]; lia.
Qed.

Lemma in_range_test p : 0 ≤ p ≤ 65535 → (p <? 0) || (65535 <? p) = false.
Proof. intros Hp. apply orb_false_iff. split; apply Z.ltb_ge; lia. Qed.

Lemma out_of_range_test p : p < 0 ∨ 65535 < p → (p <? 0) || (65535 <? p) = true.
Proof. intros Hp. apply orb_true_iff. destruct Hp; [left | right]; by apply Z.ltb_lt. Qed.

(** A process started directly with a port from 1 to 65535 serves on it,
    or says why it cannot. *)
Lemma script_tcp_port p :
  App.port py env = Ok p → started_directly env = true → 1 ≤ p ≤ 65535 →
  App.script py o env
  = match Flask.bind_error o "0.0.0.0" p with
    | Some (errno, strerror) =>
        Py.Exited 1
          (strerror +:+ Werkzeug.nl
           +:+ (if errno =? Flask.EADDRINUSE o then Flask.address_in_use_hint o p
                else EmptyString))
    | None => Py.Serving "0.0.0.0" p
    end.
Proof.
  intros Hport Hdirect Hp. rewrite (script_started_directly p Hport Hdirect).
  rewrite get_sockaddr_in_range, in_range_test by lia.
  destruct (Flask.bind_error o "0.0.0.0" p) as [[errno strerror] |]; [done |].
  assert ((p =? 0) = false) as -> by (apply Z.eqb_neq; lia). done.
Qed.

Lemma message_nonempty (s t : string) : s +:+ Werkzeug.nl +:+ t ≠ EmptyString.
Proof. intros [_ H]%append_nil_inv. discriminate H. Qed.

End startup.

(** ** The models on concrete inputs *)

Example int_plain : Py.int_of_str Py.default_interp "8080" = Ok 8080.
Proof. reflexivity. Qed.

Example int_padded : Py.int_of_str Py.default_interp " +1_000 " = Ok 1000.
Proof. reflexivity. Qed.

Example int_rejects_float :
  Py.int_of_str Py.default_interp "8080.0" = Raise (Py.ValueError_invalid_literal "8080.0").
Proof. reflexivity. Qed.

Example int_rejects_empty :
  Py.int_of_str Py.default_interp EmptyString = Raise (Py.ValueError_invalid_literal EmptyString).
Proof. reflexivity. Qed.

Example str_negative : Py.str (-42) = "-42".
Proof. reflexivity. Qed.

Example compact_body :
  Werkzeug.data (fst (Flask.wsgi_app App.app (sample_request "GET" "/") sample_state))
  = "{" +:+ Json.encode_str "message" +:+ ":"
    +:+ Json.encode_str "Hello from a Confidential GKE container!"
    +:+ "}" +:+ Werkzeug.nl.
Proof. reflexivity. Qed.

Example quoted_message :
  Json.encode_str "message"
  = String Json.dquote ("message" +:+ String Json.dquote EmptyString).
Proof. reflexivity. Qed.

Example statuses :
  map (λ mp, Werkzeug.status
               (fst (Flask.wsgi_app App.app (sample_request (fst mp) (snd mp)) sample_state)))
    [ ("GET", "/"); ("HEAD", "/"); ("OPTIONS", "/"); ("POST", "/");
      ("GET", "/unknown"); ("DELETE", "/unknown");
      ("GET", "/static/x"); ("POST", "/static/x"); ("OPTIONS", "/static/x");
      ("GET", "/static//x"); ("GET", "/static///x"); ("POST", "/static//x");
      ("GET", "//"); ("GET", EmptyString); ("POST", EmptyString) ]
  = [200; 200; 200; 405; 404; 404; 404; 405; 200; 308; 308; 405; 200; 308; 404].
Proof. reflexivity. Qed.

Example websocket_statuses :
  map (λ mp, Werkzeug.status
               (fst (Flask.wsgi_app App.app (websocket_request_to (fst mp) (snd mp))
                       sample_state)))
    [ ("GET", "/"); ("OPTIONS", "/"); ("POST", "/"); ("GET", "/unknown");
      ("GET", "/static/x"); ("GET", "/static//x"); ("GET", EmptyString) ]
  = [400; 400; 405; 404; 400; 400; 404].
Proof. reflexivity. Qed.

Example hosts :
  map (valid_host Py.default_interp)
    [ "localhost:8080"; "example.org"; "EXAMPLE.ORG:443"; "127.0.0.1"; "[::1]:8080";
      EmptyString; "example.org."; "a..b"; ".example.org";
      "a-label-of-sixty-four-characters-is-one-too-many-for-the-codec-x.org" ]
  = [true; true; true; true; true; true; true; false; false; false].
Proof. reflexivity. Qed.

Example header_order :
  map fst (Werkzeug.headers
             (fst (Flask.wsgi_app App.app (sample_request "GET" "/static//x") sample_state)))
  = ["Content-Type"; "Content-Length"; "Location"]
  ∧ Werkzeug.header "Location"
      (Werkzeug.headers
         (fst (Flask.wsgi_app App.app (sample_request "GET" "/static//x") sample_state)))
    = Some "http://localhost:8080/static/x?utm=1".
Proof. split; reflexivity. Qed.

Example allow_orders :
  Werkzeug.header "Allow"
    (Werkzeug.headers (fst (Flask.wsgi_app App.app (sample_request "POST" "/") sample_state)))
  = Some "OPTIONS, HEAD, GET"
  ∧ Werkzeug.header "Allow"
      (Werkzeug.headers
         (fst (Flask.wsgi_app App.app (sample_request "POST" "/")
                 {| Flask.python := seeded_interp; Flask.debug := false;
                    Flask.environ := ∅ |})))
    = Some "GET, HEAD, OPTIONS".
Proof. split; reflexivity. Qed.

Example scripts :
  map (λ s, App.script Py.default_interp free_os {[ "PORT" := s ]})
    ["8080"; "0"; "70000"; "65536"; "-1"]
  = [ Py.Serving "0.0.0.0" 8080; Py.Serving "0.0.0.0" 49152; Py.Serving "0.0.0.0" 4464;
      Py.Serving "0.0.0.0" 49152; Py.Exited 1 (Py.traceback Py.OverflowError_port) ].
Proof. reflexivity. Qed.

Example script_port_in_use :
  App.script Py.default_interp busy_os ∅
  = Py.Exited 1
      ("Address already in use" +:+ Werkzeug.nl
       +:+ "Port 5000 is in use by another program. Either identify and stop that program, or start the server with a different port."
       +:+ Werkzeug.nl).
Proof. reflexivity. Qed.

(** ** Requests to the routes *)

Section routes.
Variables (req : Flask.request) (st : Flask.state).

Lemma mem_route_methods m :
  mem m route_methods = true → m = "GET" ∨ m = "HEAD" ∨ m = "OPTIONS".
Proof.
  unfold mem, route_methods. cbn [existsb].
  destruct (String.eqb_spec m "GET"); [by left |].
  destruct (String.eqb_spec m "HEAD"); [by right; left |].
  destruct (String.eqb_spec m "OPTIONS"); [by right; right |]. done.
Qed.

(** What a [GET /] is answered with. *)
Lemma root_get_response :
  Flask.method req = "GET" → Flask.path req = "/" →
  fst (Flask.wsgi_app App.app req st)
  = if ordinary (Flask.python st) req
    then Werkzeug.Response
           (Json.dumps (Flask.dump_args (Flask.debug st)) App.greeting +:+ Werkzeug.nl)
           200 [] (Some "application/json")
    else Werkzeug.get_response
           (if valid_host (Flask.python st) (Flask.host req)
            then Werkzeug.WebsocketMismatch else Werkzeug.BadHost).
Proof.
  intros Hm Hp. rewrite wsgi_app_fst, app_dispatch. cbv zeta. rewrite Hm, Hp.
  unfold ordinary.
  change (Werkzeug.path_part "/") with "/". change (Flask.upper "GET") with "GET".
  change (mem "GET" route_methods) with true.
  destruct (valid_host _ _); [| done].
  by destruct (websocket_request req).
Qed.

(** What a request to ["/"] with another method is answered with. *)
Lemma root_other_method_response :
  Flask.path req = "/" →
  mem (Flask.upper (Flask.method req)) route_methods = false →
  fst (Flask.full_dispatch_request App.app req st)
  = if valid_host (Flask.python st) (Flask.host req)
    then Werkzeug.get_response
           (Werkzeug.MethodNotAllowed (Py.set_list (Flask.python st) route_methods))
    else Werkzeug.get_response Werkzeug.BadHost.
Proof.
  intros Hp Hm. rewrite app_dispatch. cbv zeta. rewrite Hp, Hm.
  change (Werkzeug.path_part "/") with "/".
  by destruct (valid_host _ _).
Qed.

(** What an ordinary [OPTIONS /] is answered with. *)
Lemma root_options_response :
  Flask.method req = "OPTIONS" → Flask.path req = "/" →
  fst (Flask.wsgi_app App.app req st)
  = if ordinary (Flask.python st) req
    then {| Werkzeug.status := 200;
            Werkzeug.headers :=
              [ ("Content-Type", "text/html; charset=utf-8");
                ("Allow", Json.join ", " (Py.set_list (Flask.python st) route_methods));
                ("Content-Length", "0") ];
            Werkzeug.data := EmptyString |}
    else Werkzeug.get_response
           (if valid_host (Flask.python st) (Flask.host req)
            then Werkzeug.WebsocketMismatch else Werkzeug.BadHost).
Proof.
  intros Hm Hp. rewrite wsgi_app_fst, app_dispatch. cbv zeta. rewrite Hm, Hp.
  unfold ordinary.
  change (Werkzeug.path_part "/") with "/". change (Flask.upper "OPTIONS") with "OPTIONS".
  change (mem "OPTIONS" route_methods) with true.
  destruct (valid_host _ _); [| done].
  by destruct (websocket_request req).
Qed.

(** A response with status 200 is the one to [OPTIONS], without a body, or
    the one of the view at ["/"]. *)
Lemma app_ok_cases :
  let m := Flask.upper (Flask.method req) in
  let rv := fst (Flask.full_dispatch_request App.app req st) in
  Werkzeug.status rv = 200 →
  (m = "OPTIONS" ∧ Werkzeug.data rv = EmptyString)
  ∨ (Werkzeug.path_part (Flask.path req) = "/" ∧ (m = "GET" ∨ m = "HEAD")).
Proof.
  intros m rv. subst rv. rewrite app_dispatch. cbv zeta. fold m.
  destruct (valid_host _ _); cbn [negb]; [| done].
  destruct (String.eqb_spec (Werkzeug.path_part (Flask.path req)) "/") as [Hroot | Hroot].
  { destruct (mem m route_methods) eqn:Hm; cbn [negb]; [| done].
    destruct (websocket_request req); [done |].
    destruct (String.eqb_spec m "OPTIONS") as [Hopt | Hopt]; [by left |].
    intros _. right. split; [done |].
    destruct (mem_route_methods m Hm) as [? | [? | ?]]; by auto. }
  destruct (static_path (Werkzeug.path_part _)).
  { destruct (mem m route_methods) eqn:Hm; cbn [negb]; [| done].
    destruct (websocket_request req); [done |].
    destruct (String.eqb_spec m "OPTIONS") as [Hopt | Hopt]; [by left | done]. }
  destruct (String.eqb (Werkzeug.path_part _) EmptyString).
  { by destruct (mem m route_methods && negb _). }
  destruct (static_path (Werkzeug.merge_slashes _)); [| done].
  destruct (mem m route_methods); cbn [negb]; [| done].
  by destruct (websocket_request req).
Qed.

End routes.

(** The body of the greeting in the two layouts. *)
Lemma greeting_layouts debug1 debug2 :
  Json.dumps (Flask.dump_args debug1) App.greeting +:+ Werkzeug.nl
  = Json.dumps (Flask.dump_args debug2) App.greeting +:+ Werkzeug.nl
  ↔ debug1 = debug2.
Proof.
  split; [| by intros ->].
  destruct debug1, debug2; try done; vm_compute; discriminate.
Qed.

(** * Properties of the service *)

(** C1, as stated, fails: a [GET] request to ["/"] that asks to switch to
    the WebSocket protocol matches no rule for such connections, and the
    answer is 400 Bad Request, not 200. *)
Lemma root_get_websocket_counterexample :
  Flask.method (websocket_request_to "GET" "/") = "GET"
  ∧ Flask.path (websocket_request_to "GET" "/") = "/"
  ∧ Werkzeug.status
      (fst (Flask.wsgi_app App.app (websocket_request_to "GET" "/") sample_state))
    = 400.
Proof. repeat split; reflexivity. Qed.

(** C1, amended.  Every ordinary [GET] request to ["/"] (one with a valid
    host that asks for no WebSocket connection) is answered with status 200
    and a body that, decoded as JSON, is exactly the mapping
    [{"message": "Hello from a Confidential GKE container!"}], in every state
    of the application and whatever else the request carries.  Every other
    [GET] request to ["/"] is answered with 400 Bad Request. *)
Theorem root_get_returns_greeting (req : Flask.request) (st : Flask.state) :
  Flask.method req = "GET" → Flask.path req = "/" →
  let rv := fst (Flask.wsgi_app App.app req st) in
  if ordinary (Flask.python st) req
  then Werkzeug.status rv = 200
       ∧ Json.loads (Werkzeug.data rv)
         = Some (Json.Obj [("message", Json.Str "Hello from a Confidential GKE container!")])
  else Werkzeug.status rv = 400.
Proof.
  intros Hm Hp rv. subst rv. rewrite (root_get_response req st Hm Hp).
  destruct (ordinary _ _).
  - split; [reflexivity |]. apply greeting_dumps_loads.
  - by destruct (valid_host _ _).
Qed.

Lemma root_get_returns_greeting_witness :
  Flask.method (sample_request "GET" "/") = "GET"
  ∧ Flask.path (sample_request "GET" "/") = "/"
  ∧ Werkzeug.status (fst (Flask.wsgi_app App.app (sample_request "GET" "/") sample_state))
    = 200
  ∧ Json.loads
      (Werkzeug.data (fst (Flask.wsgi_app App.app (sample_request "GET" "/") sample_state)))
    = Some (Json.Obj [("message", Json.Str "Hello from a Confidential GKE container!")]).
Proof.
  split; [reflexivity |]. split; [reflexivity |].
  exact (root_get_returns_greeting (sample_request "GET" "/") sample_state
           eq_refl eq_refl).
Defined.

(** C2, as stated, fails: with [PORT=abc] the conversion raises [ValueError],
    the script never reaches [app.run] and the process ends with status 1,
    although port 5000 could have been bound. *)
Lemma unparsable_port_counterexample :
  App.port Py.default_interp {[ "PORT" := "abc" ]}
  = Raise (Py.ValueError_invalid_literal "abc")
  ∧ Flask.socket_bind free_os "0.0.0.0" 5000 = Ok ()
  ∧ App.script Py.default_interp free_os {[ "PORT" := "abc" ]}
    ≠ Py.Serving "0.0.0.0" 5000.
Proof. split; [| split]; [reflexivity | reflexivity | discriminate]. Qed.

(** C2, amended.  If [PORT] is set to a string that [int] rejects, the
    script raises that [ValueError] before [app.run] is called: no socket is
    bound, on whatever operating system, and the process ends with exit
    status 1 and a traceback on standard error.  There is no fallback to
    port 5000. *)
Theorem unparsable_port_is_fatal (py : Py.interp) (o : Flask.os)
    (env : gmap string string) (s : string) (e : Py.exn) :
  env !! "PORT" = Some s →
  Py.int_of_str py s = Raise e →
  App.main py o env = Raise e
  ∧ App.script py o env = Py.Exited 1 (Py.traceback e).
Proof.
  intros Henv Hint. apply script_port_raises.
  unfold App.port, Py.environ_get. by rewrite Henv.
Qed.

Lemma unparsable_port_is_fatal_witness :
  ({[ "PORT" := "abc" ]} : gmap string string) !! "PORT" = Some "abc"
  ∧ Py.int_of_str Py.default_interp "abc" = Raise (Py.ValueError_invalid_literal "abc")
  ∧ App.main Py.default_interp free_os {[ "PORT" := "abc" ]}
    = Raise (Py.ValueError_invalid_literal "abc")
  ∧ App.script Py.default_interp free_os {[ "PORT" := "abc" ]}
    = Py.Exited 1 (Py.traceback (Py.ValueError_invalid_literal "abc")).
Proof.
  split; [reflexivity |]. split; [reflexivity |].
  apply (unparsable_port_is_fatal Py.default_interp free_os {[ "PORT" := "abc" ]} "abc");
    reflexivity.
Defined.

(** C3, as stated, fails: under the [flask] command line, which sets
    [FLASK_RUN_FROM_CLI] to ["true"], [app.run] returns at once; with [PORT]
    unset and port 5000 free, the script binds nothing and ends with
    status 0. *)
Lemma unset_port_counterexample :
  ({[ "FLASK_RUN_FROM_CLI" := "true" ]} : gmap string string) !! "PORT" = None
  ∧ Flask.socket_bind free_os "0.0.0.0" 5000 = Ok ()
  ∧ App.script Py.default_interp free_os {[ "FLASK_RUN_FROM_CLI" := "true" ]}
    = Py.Exited 0 EmptyString.
Proof. repeat split; reflexivity. Qed.

(** C3, amended.  With [PORT] unset the script calls [app.run] on all
    interfaces with port 5000.  A process started directly then binds
    0.0.0.0:5000 and serves on it, unless the operating system refuses the
    address: then it prints the system's message and ends with status 1.
    Under the [flask] command line the call is ignored and the process ends
    with status 0; the child process of the reloader binds no socket. *)
Theorem unset_port_binds_5000 (py : Py.interp) (o : Flask.os)
    (env : gmap string string) :
  env !! "PORT" = None →
  App.main py o env = Flask.run py o env App.app "0.0.0.0" 5000
  ∧ (started_directly env = true →
     match Flask.bind_error o "0.0.0.0" 5000 with
     | None => App.script py o env = Py.Serving "0.0.0.0" 5000
     | Some (errno, strerror) =>
         ∃ hint, App.script py o env = Py.Exited 1 (strerror +:+ Werkzeug.nl +:+ hint)
     end)
  ∧ (Flask.env_is env "FLASK_RUN_FROM_CLI" "true" = true →
     App.script py o env = Py.Exited 0 EmptyString)
  ∧ (Flask.is_running_from_reloader env = true →
     ∀ host p, App.script py o env ≠ Py.Serving host p).
Proof.
  intros Henv.
  assert (App.port py env = Ok 5000) as Hport.
  { unfold App.port, Py.environ_get. by rewrite Henv. }
  split; [by apply main_run |]. split; [| split].
  - intros Hdirect. rewrite (script_tcp_port py o env 5000 Hport Hdirect) by lia.
    destruct (Flask.bind_error o "0.0.0.0" 5000) as [[errno strerror] |]; [| done].
    by eexists.
  - by apply script_from_cli with (p := 5000).
  - intros Hchild host p. by apply script_reloader_child with (p := 5000).
Qed.

Lemma unset_port_binds_5000_witness :
  (∅ : gmap string string) !! "PORT" = None
  ∧ started_directly ∅ = true
  ∧ App.script Py.default_interp free_os ∅ = Py.Serving "0.0.0.0" 5000.
Proof.
  split; [reflexivity |]. split; [reflexivity |].
  exact (proj1 (proj2 (unset_port_binds_5000 Py.default_interp free_os ∅ eq_refl))
           eq_refl).
Defined.

(** C4, as stated, fails: 0 is a valid integer, but a socket bound to port 0
    listens on a port the operating system picks; with [PORT=0] the
    listener is not on TCP port 0.  Likewise 70000 is a valid integer, and
    where the C library cuts it to 16 bits the listener is on port 4464. *)
Lemma port_zero_counterexample :
  ({[ "PORT" := "0" ]} : gmap string string) !! "PORT" = Some (Py.str 0)
  ∧ App.port Py.default_interp {[ "PORT" := "0" ]} = Ok 0
  ∧ App.script Py.default_interp free_os {[ "PORT" := "0" ]}
    = Py.Serving "0.0.0.0" (Flask.ephemeral_port free_os)
  ∧ Flask.ephemeral_port free_os ≠ 0
  ∧ App.port Py.default_interp {[ "PORT" := "70000" ]} = Ok 70000
  ∧ App.script Py.default_interp free_os {[ "PORT" := "70000" ]}
    = Py.Serving "0.0.0.0" 4464.
Proof. repeat split; try reflexivity. discriminate. Qed.

(** C4, amended.  For every integer [N] (short enough for the interpreter to
    convert), with [PORT] set to the decimal text of [N] the script calls
    [app.run] on all interfaces with port [N].  In a process started
    directly:
    - for [N] from 1 to 65535 the listener is bound to TCP port [N], unless
      the operating system refuses the address: then its message is printed
      and the process ends with status 1;
    - for [N = 0] the listener is on the port the operating system picks;
    - for any other [N] the C library decides: a number it resolves to a
      port is bound as that port, cut to 16 bits; one it knows no service
      for fails in [bind] and one that does not fit a C [long] fails in
      [getaddrinfo], each with [OverflowError] and status 1.
    Under the [flask] command line the call is ignored and the process ends
    with status 0; the child process of the reloader binds no socket. *)
Theorem valid_port_is_bound (py : Py.interp) (o : Flask.os)
    (env : gmap string string) (N : Z) :
  env !! "PORT" = Some (Py.str N) →
  Py.exceeds_digit_limit py (Py.num_digits N) = false →
  App.main py o env = Flask.run py o env App.app "0.0.0.0" N
  ∧ (started_directly env = true →
     (1 ≤ N ≤ 65535 →
      match Flask.bind_error o "0.0.0.0" N with
      | None => App.script py o env = Py.Serving "0.0.0.0" N
      | Some (errno, strerror) =>
          ∃ hint, App.script py o env = Py.Exited 1 (strerror +:+ Werkzeug.nl +:+ hint)
      end)
     ∧ (N = 0 → Flask.bind_error o "0.0.0.0" 0 = None →
        App.script py o env = Py.Serving "0.0.0.0" (Flask.ephemeral_port o))
     ∧ (N < 0 ∨ 65535 < N →
        match Flask.getaddrinfo_port o N with
        | Flask.Port p =>
            Flask.bind_error o "0.0.0.0" (p `mod` 65536) = None →
            App.script py o env
            = Py.Serving "0.0.0.0"
                (if p `mod` 65536 =? 0 then Flask.ephemeral_port o else p `mod` 65536)
        | Flask.NoService =>
            App.script py o env = Py.Exited 1 (Py.traceback Py.OverflowError_port)
        | Flask.TooLarge =>
            App.script py o env = Py.Exited 1 (Py.traceback Py.OverflowError_c_long)
        end))
  ∧ (Flask.env_is env "FLASK_RUN_FROM_CLI" "true" = true →
     App.script py o env = Py.Exited 0 EmptyString)
  ∧ (Flask.is_running_from_reloader env = true →
     ∀ host p, App.script py o env ≠ Py.Serving host p).
Proof.
  intros Henv Hlimit.
  assert (App.port py env = Ok N) as Hport.
  { unfold App.port, Py.environ_get. rewrite Henv. cbn [Py.int].
    by apply int_of_str_str. }
  split; [by apply main_run |]. split; [| split].
  - intros Hdirect. split; [| split].
    + intros HN. rewrite (script_tcp_port py o env N Hport Hdirect HN).
      destruct (Flask.bind_error o "0.0.0.0" N) as [[errno strerror] |]; [| done].
      by eexists.
    + intros -> Hbind. rewrite (script_started_directly py o env 0 Hport Hdirect).
      rewrite get_sockaddr_in_range by lia. cbn [Z.ltb Z.compare orb]. by rewrite Hbind.
    + intros HN. rewrite (script_started_directly py o env N Hport Hdirect).
      rewrite (get_sockaddr_out_of_range o N HN).
      destruct (Flask.getaddrinfo_port o N) as [p | |]; [| | done].
      * intros Hbind. rewrite in_range_test, Hbind; [done |].
        pose proof (Z.mod_pos_bound p 65536). lia.
      * by rewrite (out_of_range_test N HN).
  - by apply script_from_cli with (p := N).
  - intros Hchild host p. by apply script_reloader_child with (p := N).
Qed.

Lemma valid_port_is_bound_witness :
  ({[ "PORT" := "8080" ]} : gmap string string) !! "PORT" = Some (Py.str 8080)
  ∧ Py.exceeds_digit_limit Py.default_interp (Py.num_digits 8080) = false
  ∧ App.main Py.default_interp free_os {[ "PORT" := "8080" ]}
    = Flask.run Py.default_interp free_os {[ "PORT" := "8080" ]} App.app "0.0.0.0" 8080
  ∧ App.script Py.default_interp free_os {[ "PORT" := "8080" ]}
    = Py.Serving "0.0.0.0" 8080.
Proof.
  split; [reflexivity |]. split; [reflexivity |].
  pose proof (valid_port_is_bound Py.default_interp free_os {[ "PORT" := "8080" ]} 8080
                eq_refl eq_refl) as (Hmain & Hdirect & _).
  split; [exact Hmain |].
  apply (proj1 (Hdirect eq_refl)). lia.
Defined.

(** C5, as stated, fails: the 400 response to a [GET] request to ["/"] that
    asks for a WebSocket connection is an HTML page. *)
Lemma root_get_html_counterexample :
  Flask.method (websocket_request_to "GET" "/") = "GET"
  ∧ Flask.path (websocket_request_to "GET" "/") = "/"
  ∧ Werkzeug.header "Content-Type"
      (Werkzeug.headers
         (fst (Flask.wsgi_app App.app (websocket_request_to "GET" "/") sample_state)))
    = Some "text/html; charset=utf-8".
Proof. repeat split; reflexivity. Qed.

(** C5, amended.  The response to every ordinary [GET] request to ["/"]
    carries the header [Content-Type: application/json]; the 400 response to
    any other [GET] request to ["/"] carries [text/html; charset=utf-8]. *)
Theorem root_get_content_type_json (req : Flask.request) (st : Flask.state) :
  Flask.method req = "GET" → Flask.path req = "/" →
  Werkzeug.header "Content-Type"
    (Werkzeug.headers (fst (Flask.wsgi_app App.app req st)))
  = Some (if ordinary (Flask.python st) req
          then "application/json" else "text/html; charset=utf-8").
Proof.
  intros Hm Hp. rewrite (root_get_response req st Hm Hp).
  destruct (ordinary _ _); [reflexivity |]. by destruct (valid_host _ _).
Qed.

Lemma root_get_content_type_json_witness :
  Flask.method (sample_request "GET" "/") = "GET"
  ∧ Flask.path (sample_request "GET" "/") = "/"
  ∧ Werkzeug.header "Content-Type"
      (Werkzeug.headers (fst (Flask.wsgi_app App.app (sample_request "GET" "/") sample_state)))
    = Some "application/json".
Proof.
  split; [reflexivity |]. split; [reflexivity |].
  exact (root_get_content_type_json (sample_request "GET" "/") sample_state
           eq_refl eq_refl).
Defined.




(** C7, as stated, fails: failing to bind is not the only way startup
    fails.  On a system where every address can be bound, the script started
    with [PORT=abc] still ends with status 1, before any socket exists. *)
Lemma second_failure_mode_counterexample :
  (∀ host port, 0 ≤ port ≤ 65535 → Flask.socket_bind free_os host port = Ok ())
  ∧ App.script Py.default_interp free_os {[ "PORT" := "abc" ]}
    = Py.Exited 1 (Py.traceback (Py.ValueError_invalid_literal "abc")).
Proof.
  split; [| reflexivity].
  intros host port Hport. unfold Flask.socket_bind. by rewrite in_range_test.
Qed.

(** C7, amended.  When a process started directly cannot bind its listening
    socket (the resolved port is out of range, or the operating system
    refuses the address), it ends at once with exit status 1 and a message
    on standard error.  That is not the only way a run ends without serving:
    a process that has exited
    - was started under the [flask] command line, where [app.run] is ignored
      (status 0), or
    - is the child process of the reloader, or
    - has status 1 and a message on standard error, because [int] rejected
      the value of [PORT], because the port does not fit a C [long], or
      because the bind failed.
    In every other case the process is serving on all interfaces. *)
Theorem bind_failure_is_fatal (py : Py.interp) (o : Flask.os)
    (env : gmap string string) (p : Z) (host' : string) (port' : Z) (e : Py.exn) :
  App.port py env = Ok p →
  started_directly env = true →
  Flask.get_sockaddr o "0.0.0.0" p = Ok (host', port') →
  Flask.socket_bind o host' port' = Raise e →
  (∃ stderr, App.script py o env = Py.Exited 1 stderr ∧ stderr ≠ EmptyString)
  ∧ (∀ py' o' env',
       match App.script py' o' env' with
       | Py.Serving host q =>
           host = "0.0.0.0" ∧ started_directly env' = true
           ∧ ∃ n port'', App.port py' env' = Ok n
                         ∧ Flask.get_sockaddr o' "0.0.0.0" n = Ok ("0.0.0.0", port'')
                         ∧ Flask.socket_bind o' "0.0.0.0" port'' = Ok ()
       | Py.ServingInherited fd => Flask.is_running_from_reloader env' = true
       | Py.Exited status stderr =>
           (status = 0 ∧ stderr = EmptyString
            ∧ Flask.env_is env' "FLASK_RUN_FROM_CLI" "true" = true)
           ∨ Flask.is_running_from_reloader env' = true
           ∨ (status = 1 ∧ stderr ≠ EmptyString
              ∧ ((∃ e', App.port py' env' = Raise e')
                 ∨ (∃ n, App.port py' env' = Ok n
                         ∧ Flask.get_sockaddr o' "0.0.0.0" n = Raise Py.OverflowError_c_long)
                 ∨ (∃ n host'' port'' e',
                      App.port py' env' = Ok n
                      ∧ Flask.get_sockaddr o' "0.0.0.0" n = Ok (host'', port'')
                      ∧ Flask.socket_bind o' host'' port'' = Raise e')))
       end).
Proof.
  intros Hport Hdirect Haddr Hbind. split.
  - rewrite (script_started_directly py o env p Hport Hdirect), Haddr.
    unfold Flask.socket_bind in Hbind.
    destruct ((port' <? 0) || (65535 <? port')); [by eexists |].
    destruct (Flask.bind_error o host' port') as [[errno strerror] |]; [| done].
    eexists. split; [done |]. apply message_nonempty.
  - clear. intros py o env.
    destruct (App.port py env) as [n | e] eqn:Hport.
    2:{ destruct (script_port_raises py o env e Hport) as [_ ->].
        right. right. split; [done |]. split; [done |]. left. by exists e. }
    destruct (Flask.env_is env "FLASK_RUN_FROM_CLI" "true") eqn:Hcli.
    { rewrite (script_from_cli py o env n Hport Hcli). by left. }
    destruct (Flask.is_running_from_reloader env) eqn:Hchild.
    { pose proof (λ host q, script_reloader_child py o env n host q Hport Hchild) as Hnot.
      destruct (App.script py o env) as [host q | fd | status stderr];
        [by destruct (Hnot host q) | done | by right; left]. }
    assert (started_directly env = true) as Hdirect
      by (unfold started_directly; by rewrite Hcli, Hchild).
    rewrite (script_started_directly py o env n Hport Hdirect).
    assert (∀ a, Flask.get_sockaddr o "0.0.0.0" n = Ok a → fst a = "0.0.0.0") as Hhost.
    { intros a. unfold Flask.get_sockaddr.
      destruct (_ && _); [by intros [= <-] |].
      destruct (Flask.getaddrinfo_port o n); by intros [= <-]. }
    assert (∀ e, Flask.get_sockaddr o "0.0.0.0" n = Raise e → e = Py.OverflowError_c_long)
      as Hraise.
    { intros e. unfold Flask.get_sockaddr.
      destruct (_ && _); [done |].
      destruct (Flask.getaddrinfo_port o n); by intros [= <-]. }
    destruct (Flask.get_sockaddr o "0.0.0.0" n) as [[host q] | e] eqn:Haddr.
    2:{ assert (e = Py.OverflowError_c_long) as ->
          by first [exact (Hraise e eq_refl) | exact (Hraise e Haddr)].
        right. right. split; [done |]. split; [done |]. right. left. by exists n. }
    assert (host = "0.0.0.0") as ->
      by first [exact (Hhost _ eq_refl) | exact (Hhost _ Haddr)].
    destruct ((q <? 0) || (65535 <? q)) eqn:Hrange.
    { right. right. split; [done |]. split; [done |]. right. right.
      exists n, "0.0.0.0", q, Py.OverflowError_port.
      split; [done |]. split; [done |]. unfold Flask.socket_bind. by rewrite Hrange. }
    destruct (Flask.bind_error o "0.0.0.0" q) as [[errno strerror] |] eqn:Hbind.
    + right. right. split; [done |]. split; [apply message_nonempty |]. right. right.
      exists n, "0.0.0.0", q, (Py.OSError errno strerror).
      split; [done |]. split; [done |]. unfold Flask.socket_bind. by rewrite Hrange, Hbind.
    + split; [done |]. split; [done |]. exists n, q.
      split; [done |]. split; [done |]. unfold Flask.socket_bind. by rewrite Hrange, Hbind.
Qed.

Lemma bind_failure_is_fatal_witness :
  App.port Py.default_interp ∅ = Ok 5000
  ∧ started_directly ∅ = true
  ∧ Flask.get_sockaddr busy_os "0.0.0.0" 5000 = Ok ("0.0.0.0", 5000)
  ∧ Flask.socket_bind busy_os "0.0.0.0" 5000 = Raise (Py.OSError 98 "Address already in use")
  ∧ ∃ stderr, App.script Py.default_interp busy_os ∅ = Py.Exited 1 stderr
              ∧ stderr ≠ EmptyString.
Proof.
  do 4 (split; [reflexivity |]).
  exact (proj1 (bind_failure_is_fatal Py.default_interp busy_os ∅ 5000 "0.0.0.0" 5000
                  (Py.OSError 98 "Address already in use")
                  eq_refl eq_refl eq_refl eq_refl)).
Defined.

(** C8.  The view leaves the module-level state (the configuration of the
    application and the process environment) exactly as it found it, and so
    does the handling of every request and of every sequence of requests:
    serving never changes the state of the service. *)
Theorem handler_leaves_state_unchanged :
  (∀ args st, snd (App.hello_confidential_world args st) = st)
  ∧ (∀ req st, snd (Flask.wsgi_app App.app req st) = st)
  ∧ (∀ reqs st, snd (Flask.serve App.app reqs st) = st).
Proof.
  split; [apply hello_confidential_world_pure |]. split.
  - apply wsgi_app_state, app_views_pure.
  - apply serve_state, app_views_pure.
Qed.

(** C9, as stated, fails: a [POST] request to ["/"] whose host has an empty
    label is refused before its URL is matched, with 400 and not 405. *)
Lemma root_post_bad_host_counterexample :
  Flask.path (bad_host_request "POST" "/") = "/"
  ∧ mem (Flask.upper (Flask.method (bad_host_request "POST" "/"))) ["GET"; "HEAD"; "OPTIONS"]
    = false
  ∧ Werkzeug.status
      (fst (Flask.wsgi_app App.app (bad_host_request "POST" "/") sample_state))
    = 400.
Proof. repeat split; reflexivity. Qed.

(** C9, amended.  Every request to ["/"] with a valid host whose method is
    none of [GET], [HEAD] and [OPTIONS] gets 405 Method Not Allowed, and not
    404, also when it asks for a WebSocket connection; the [Allow] header
    lists those three methods, in an order that depends on the hash seed of
    the process.  With an invalid host the answer is 400. *)
Theorem root_other_method_returns_405 (req : Flask.request) (st : Flask.state) :
  Flask.path req = "/" →
  mem (Flask.upper (Flask.method req)) ["GET"; "HEAD"; "OPTIONS"] = false →
  let rv := fst (Flask.wsgi_app App.app req st) in
  if valid_host (Flask.python st) (Flask.host req)
  then Werkzeug.status rv = 405
       ∧ Werkzeug.status rv ≠ 404
       ∧ ∃ methods, Permutation methods ["GET"; "HEAD"; "OPTIONS"]
                    ∧ Werkzeug.header "Allow" (Werkzeug.headers rv)
                      = Some (Json.join ", " methods)
  else Werkzeug.status rv = 400.
Proof.
  intros Hp Hm rv. subst rv.
  rewrite wsgi_app_status, wsgi_app_headers, (root_other_method_response req st Hp Hm).
  destruct (valid_host _ _); [| done].
  split; [done |]. split; [done |].
  exists (Py.set_list (Flask.python st) route_methods).
  split; [apply set_list_perm | done].
Qed.

Lemma root_other_method_returns_405_witness :
  Flask.path (sample_request "POST" "/") = "/"
  ∧ mem (Flask.upper (Flask.method (sample_request "POST" "/"))) ["GET"; "HEAD"; "OPTIONS"]
    = false
  ∧ Werkzeug.status (fst (Flask.wsgi_app App.app (sample_request "POST" "/") sample_state))
    = 405.
Proof.
  split; [reflexivity |]. split; [reflexivity |].
  exact (proj1 (root_other_method_returns_405 (sample_request "POST" "/") sample_state
                  eq_refl eq_refl)).
Defined.

(** C10, as stated, fails: the environment decides the layout of the body.
    A process started with [FLASK_DEBUG=1] answers [GET /] with the indented
    document, a process started without it with the compact one. *)
Lemma root_get_debug_counterexample :
  Flask.method (sample_request "GET" "/") = "GET"
  ∧ Flask.path (sample_request "GET" "/") = "/"
  ∧ Werkzeug.data
      (fst (Flask.wsgi_app App.app (sample_request "GET" "/")
              (App.startup Py.default_interp {[ "FLASK_DEBUG" := "1" ]})))
    ≠ Werkzeug.data
        (fst (Flask.wsgi_app App.app (sample_request "GET" "/")
                (App.startup Py.default_interp ∅))).
Proof. repeat split; [reflexivity.. |]. vm_compute. discriminate. Qed.

(** C10, amended.  Take two [GET] requests to ["/"], each served by a
    process of the application, on any interpreter, started with any
    environment and after any requests.  If both are ordinary requests, the
    two responses have status 200 and bodies that decode to the same JSON
    document, whatever the headers, query strings and bodies of the
    requests; the bodies are identical exactly when the two environments
    give the same debug flag ([FLASK_DEBUG]), so always within one process.
    If neither is ordinary, both responses are the same 400 page.  An
    ordinary request and one that is not differ in status. *)
Theorem root_get_deterministic (py1 py2 : Py.interp) (env1 env2 : gmap string string)
    (before1 before2 : list Flask.request) (req1 req2 : Flask.request) :
  Flask.method req1 = "GET" → Flask.path req1 = "/" →
  Flask.method req2 = "GET" → Flask.path req2 = "/" →
  let st1 := snd (Flask.serve App.app before1 (App.startup py1 env1)) in
  let st2 := snd (Flask.serve App.app before2 (App.startup py2 env2)) in
  let rv1 := fst (Flask.wsgi_app App.app req1 st1) in
  let rv2 := fst (Flask.wsgi_app App.app req2 st2) in
  (ordinary py1 req1 = true → ordinary py2 req2 = true →
   Werkzeug.status rv1 = Werkzeug.status rv2
   ∧ Json.loads (Werkzeug.data rv1) = Json.loads (Werkzeug.data rv2)
   ∧ (Werkzeug.data rv1 = Werkzeug.data rv2
      ↔ Flask.get_debug_flag env1 = Flask.get_debug_flag env2))
  ∧ (ordinary py1 req1 = false → ordinary py2 req2 = false →
     Werkzeug.status rv1 = Werkzeug.status rv2
     ∧ Werkzeug.data rv1 = Werkzeug.data rv2)
  ∧ (ordinary py1 req1 ≠ ordinary py2 req2 →
     Werkzeug.status rv1 ≠ Werkzeug.status rv2).
Proof.
  intros Hm1 Hp1 Hm2 Hp2 st1 st2 rv1 rv2. subst rv1 rv2 st1 st2.
  rewrite !(serve_state _ app_views_pure).
  rewrite (root_get_response req1 _ Hm1 Hp1), (root_get_response req2 _ Hm2 Hp2).
  cbn [App.startup Flask.python Flask.debug].
  split; [| split].
  - intros -> ->. split; [done |]. split.
    + cbn [Werkzeug.Response Werkzeug.data]. by rewrite !greeting_dumps_loads.
    + apply greeting_layouts.
  - intros -> ->. by destruct (valid_host py1 _), (valid_host py2 _).
  - destruct (ordinary py1 req1), (ordinary py2 req2); try done; intros _;
      by destruct (valid_host _ _).
Qed.

Lemma root_get_deterministic_witness :
  Flask.method (sample_request "GET" "/") = "GET"
  ∧ Flask.path (sample_request "GET" "/") = "/"
  ∧ Flask.method other_request = "GET"
  ∧ Flask.path other_request = "/"
  ∧ ordinary Py.default_interp (sample_request "GET" "/") = true
  ∧ ordinary seeded_interp other_request = true
  ∧ Werkzeug.status
      (fst (Flask.wsgi_app App.app (sample_request "GET" "/")
              (snd (Flask.serve App.app [sample_request "POST" "/x"]
                      (App.startup Py.default_interp ∅)))))
    = Werkzeug.status
        (fst (Flask.wsgi_app App.app other_request
                (snd (Flask.serve App.app []
                        (App.startup seeded_interp {[ "PORT" := "8080" ]})))))
  ∧ Werkzeug.data
      (fst (Flask.wsgi_app App.app (sample_request "GET" "/")
              (snd (Flask.serve App.app [sample_request "POST" "/x"]
                      (App.startup Py.default_interp ∅)))))
    = Werkzeug.data
        (fst (Flask.wsgi_app App.app other_request
                (snd (Flask.serve App.app []
                        (App.startup seeded_interp {[ "PORT" := "8080" ]}))))).
Proof.
  do 6 (split; [reflexivity |]).
  pose proof (root_get_deterministic Py.default_interp seeded_interp ∅ {[ "PORT" := "8080" ]}
                [sample_request "POST" "/x"] [] (sample_request "GET" "/") other_request
                eq_refl eq_refl eq_refl eq_refl) as (Hordinary & _).
  destruct (Hordinary eq_refl eq_refl) as (Hstatus & _ & Hdata).
  split; [exact Hstatus |]. exact (proj2 Hdata eq_refl).
Defined.

(** * Further lemmas *)

(** ** JSON strings and objects read back *)

Section json_strings.

Lemma parse_chars_escape_char c tail fuel :
  Json.parse_chars (S fuel) (Json.escape_char c +:+ tail)
  = '(t, rest) ← Json.parse_chars fuel tail; Some (String c t, rest).
Proof.
  destruct c as [[] [] [] [] [] [] [] []]; reflexivity.
Qed.

Lemma escape_char_length c : (1 ≤ String.length (Json.escape_char c))%nat.
Proof.
  destruct c as [[] [] [] [] [] [] [] []]; vm_compute; lia.
Qed.

Lemma escape_length s : (String.length s ≤ String.length (Json.escape s))%nat.
Proof.
  induction s as [| c s IH]; simpl; [done |].
  rewrite length_append. pose proof (escape_char_length c). lia.
Qed.

(** Reading back an escaped string gives the string. *)
Lemma parse_chars_escape s rest fuel :
  (String.length s < fuel)%nat →
  Json.parse_chars fuel (Json.escape s +:+ String Json.dquote rest) = Some (s, rest).
Proof.
  revert fuel. induction s as [| c s IH]; intros [| fuel] Hfuel;
    try (simpl in Hfuel; lia).
  - reflexivity.
  - change (Json.escape (String c s)) with (Json.escape_char c +:+ Json.escape s).
    rewrite append_assoc, parse_chars_escape_char, IH by (simpl in Hfuel; lia).
    reflexivity.
Qed.

Lemma encode_str_append s tail :
  Json.encode_str s +:+ tail
  = String Json.dquote (Json.escape s +:+ String Json.dquote tail).
Proof.
  unfold Json.encode_str.
  change (String Json.dquote ((Json.escape s +:+ String Json.dquote EmptyString) +:+ tail)
          = String Json.dquote (Json.escape s +:+ String Json.dquote tail)).
  by rewrite append_assoc.
Qed.

Lemma parse_value_encode_str s tail fuel :
  Json.parse_value (S fuel) (Json.encode_str s +:+ tail) = Some (Json.Str s, tail).
Proof.
  rewrite encode_str_append.
  change (Json.parse_value (S fuel) (String Json.dquote ?r))
    with ('(t, rest) ← Json.parse_chars (S (String.length r)) r;
          Some (Json.Str t, rest)).
  rewrite parse_chars_escape; [done |].
  rewrite length_append. pose proof (escape_length s). lia.
Qed.

End json_strings.

Section json_objects.

Lemma skip_ws_all_ws w x : all_ws w = true → Json.skip_ws (w +:+ x) = Json.skip_ws x.
Proof.
  induction w as [| c w IH]; [done |].
  intros [Hc Hw]%andb_true_iff.
  change (Json.skip_ws (String c (w +:+ x)) = Json.skip_ws x).
  cbn [Json.skip_ws]. rewrite Hc. auto.
Qed.

Lemma skip_ws_only_ws w : all_ws w = true → Json.skip_ws w = EmptyString.
Proof.
  induction w as [| c w IH]; [done |].
  intros [Hc Hw]%andb_true_iff. cbn [Json.skip_ws]. rewrite Hc. auto.
Qed.

Lemma skip_ws_encode_str s x :
  Json.skip_ws (Json.encode_str s +:+ x) = Json.encode_str s +:+ x.
Proof. by rewrite encode_str_append. Qed.

(** An object with one string member is read back whatever whitespace
    surrounds its tokens. *)
Lemma loads_single_member (k s w1 w2 w3 w4 : string) :
  all_ws w1 = true → all_ws w2 = true → all_ws w3 = true → all_ws w4 = true →
  Json.loads
    (String "{" (w1 +:+ Json.encode_str k +:+ String ":" (w2 +:+ Json.encode_str s
                 +:+ w3 +:+ String "}" w4)))
  = Some (Json.Obj [(k, Json.Str s)]).
Proof.
  intros H1 H2 H3 H4. unfold Json.loads.
  set (after_key := String ":" (w2 +:+ Json.encode_str s +:+ w3 +:+ String "}" w4)).
  set (text := String "{" (w1 +:+ Json.encode_str k +:+ after_key)).
  change (Json.skip_ws text) with text.
  assert (Json.parse_value (S (String.length text)) text
          = Some (Json.Obj [(k, Json.Str s)], w4)) as ->.
  { subst text.
    change (Json.parse_value (S ?f) (String "{" ?r))
      with (match Json.skip_ws r with
            | String d r' =>
                if Ascii.eqb d "}" then Some (Json.Obj [], r')
                else '(ms, rest) ← Json.parse_members (Json.parse_value f)
                                     (String.length (String "{" r)) [] (String d r');
                     Some (Json.Obj ms, rest)
            | EmptyString => None
            end).
    rewrite (skip_ws_all_ws w1) by done. rewrite skip_ws_encode_str, encode_str_append.
    change (Ascii.eqb Json.dquote "}") with false. cbv iota.
    change (Json.parse_members ?pv (String.length (String "{" ?r)) [] (String Json.dquote ?r0))
      with ('(k', r1) ← Json.parse_chars (S (String.length r0)) r0;
            match Json.skip_ws r1 with
            | String c r2 =>
                if negb (Ascii.eqb c ":") then None else
                '(v, r3) ← pv (Json.skip_ws r2);
                match Json.skip_ws r3 with
                | String d r4 =>
                    if Ascii.eqb d ","
                    then Json.parse_members pv (String.length r) (Json.dict_set k' v [])
                           (Json.skip_ws r4)
                    else if Ascii.eqb d "}" then Some (Json.dict_set k' v [], r4)
                    else None
                | EmptyString => None
                end
            | EmptyString => None
            end).
    rewrite parse_chars_escape
      by (rewrite length_append; pose proof (escape_length k); lia).
    subst after_key. cbn [mbind option_bind]. 
    change (Json.skip_ws (String ":" ?r)) with (String ":" r). cbv iota.
    change (negb (Ascii.eqb ":" ":")) with false. cbv iota.
    rewrite (skip_ws_all_ws w2) by done. rewrite skip_ws_encode_str.
    change (String.length (String "{" ?r)) with (S (String.length r)).
    rewrite parse_value_encode_str. cbn [mbind option_bind].
    rewrite (skip_ws_all_ws w3) by done.
    reflexivity. }
  cbn [mbind option_bind].
  by rewrite skip_ws_only_ws.
Qed.

End json_objects.

Lemma loads_dumps_single_member (debug : bool) (k s : string) :
  Json.loads (Json.dumps (Flask.dump_args debug) (Json.Obj [(k, Json.Str s)]) +:+ Werkzeug.nl)
  = Some (Json.Obj [(k, Json.Str s)]).
Proof.
  destruct debug.
  - change (Json.dumps (Flask.dump_args true) (Json.Obj [(k, Json.Str s)]))
      with ("{" +:+ String Json.newline "  "
            +:+ (Json.encode_str k +:+ ": " +:+ Json.encode_str s)
            +:+ String Json.newline EmptyString +:+ "}").
    rewrite !append_assoc.
    exact (loads_single_member k s (String Json.newline "  ") " "
             (String Json.newline EmptyString) Werkzeug.nl
             eq_refl eq_refl eq_refl eq_refl).
  - change (Json.dumps (Flask.dump_args false) (Json.Obj [(k, Json.Str s)]))
      with ("{" +:+ EmptyString
            +:+ (Json.encode_str k +:+ ":" +:+ Json.encode_str s)
            +:+ EmptyString +:+ "}").
    rewrite !append_assoc.
    exact (loads_single_member k s EmptyString EmptyString EmptyString Werkzeug.nl
             eq_refl eq_refl eq_refl eq_refl).
Qed.

(** ** More on [int] *)

Section padded_int.

Lemma lstrip_blank w x : blank w = true → Py.lstrip (w +:+ x) = Py.lstrip x.
Proof.
  induction w as [| c w IH]; [done |].
  intros [Hc Hw]%andb_true_iff.
  change (Py.lstrip (String c (w +:+ x)) = Py.lstrip x).
  cbn [Py.lstrip]. rewrite Hc. auto.
Qed.

Lemma lstrip_only_blank w : blank w = true → Py.lstrip w = EmptyString.
Proof.
  induction w as [| c w IH]; [done |].
  intros [Hc Hw]%andb_true_iff. cbn [Py.lstrip]. rewrite Hc. auto.
Qed.

Lemma space_not_digit c : Py.is_space c = true →
  Py.digit_value c = None ∧ Ascii.eqb c "_" = false.
Proof.
  destruct c as [[] [] [] [] [] [] [] []]; first [discriminate | by split].
Qed.

Lemma scan_blank acc n w :
  blank w = true → Py.scan Py.PDigit acc n w = Some (acc, n, w).
Proof.
  destruct w as [| c w]; [done |].
  intros [Hc _]%andb_true_iff. cbn [Py.scan].
  by destruct (space_not_digit c Hc) as [-> ->].
Qed.

Lemma int_of_str_accepts py s sign body v digits rest :
  Py.split_sign (Py.lstrip s) = (sign, body) →
  Py.scan Py.PStart 0 0 body = Some (v, digits, rest) →
  Py.exceeds_digit_limit py digits = false →
  Py.lstrip rest = EmptyString →
  Py.int_of_str py s = Ok (sign * v).
Proof.
  intros Hsplit Hscan Hlimit Hrest. unfold Py.int_of_str.
  by rewrite Hsplit, Hscan, Hlimit, Hrest.
Qed.

(** The digits of a positive number, with whitespace on both sides. *)
Lemma int_of_str_padded_pos py (x : positive) sign body w2 :
  Py.exceeds_digit_limit py (String.length (pretty (N.pos x))) = false →
  blank w2 = true →
  Py.split_sign (Py.lstrip body) = (sign, pretty (N.pos x) +:+ w2) →
  Py.int_of_str py body = Ok (sign * Z.pos x).
Proof.
  intros Hlimit Hw2 Hsplit. unfold Py.int_of_str. rewrite Hsplit.
  unfold pretty, pretty_N in *. rewrite decide_False in * by done.
  assert (pretty_N_go (N.pos x) "" +:+ w2 = pretty_N_go (N.pos x) w2) as ->.
  { clear. generalize (N.pos x) as n. intros n.
    assert (∀ s, pretty_N_go n s +:+ w2 = pretty_N_go n (s +:+ w2)) as H;
      [| apply (H EmptyString)].
    induction (N.lt_wf_0 n) as [n _ IH]; intros s.
    destruct (decide (n = 0%N)) as [-> | Hn]; [by rewrite !pretty_N_go_0 |].
    rewrite !(pretty_N_go_step n) by lia.
    rewrite IH by (apply N.div_lt; lia). done. }
  rewrite scan_pretty_N_go by done.
  rewrite scan_blank by done. simpl. rewrite Hlimit.
  by rewrite lstrip_only_blank.
Qed.

(** [int] accepts the decimal text of [n] with whitespace before and after
    it. *)
Lemma int_of_str_padded py (n : Z) (w1 w2 : string) :
  blank w1 = true → blank w2 = true →
  Py.exceeds_digit_limit py (Py.num_digits n) = false →
  Py.int_of_str py (w1 +:+ Py.str n +:+ w2) = Ok n.
Proof.
  intros Hw1 Hw2 Hlimit. unfold Py.num_digits, Py.str in *.
  assert (∀ x : positive, ∃ c r,
            pretty (N.pos x) +:+ w2 = String c r
            ∧ Py.is_space c = false
            ∧ Ascii.eqb c "+" = false ∧ Ascii.eqb c "-" = false) as Hhead.
  { intros x. unfold pretty, pretty_N. rewrite decide_False by done.
    destruct (pretty_N_go_head (N.pos x) "" ltac:(done)) as (c & r & d & -> & Hd).
    exists c, (r +:+ w2). split; [done |].
    split; [by apply (digit_not_space _ d) | by apply (digit_not_sign _ d)]. }
  destruct n as [| x | x]; simpl in Hlimit.
  - change (pretty 0%Z) with "0".
    refine (int_of_str_accepts py _ 1 (String "0" w2) 0 1%nat w2 _ _ _ _);
      [| | done | by apply lstrip_only_blank].
    + by rewrite lstrip_blank.
    + change (Py.scan Py.PStart 0 0 (String "0" w2)) with (Py.scan Py.PDigit 0 1 w2).
      by apply scan_blank.
  - change (pretty (Z.pos x)) with (pretty (N.pos x)).
    refine (int_of_str_padded_pos py x 1 _ w2 _ _ _); [done.. |].
    rewrite lstrip_blank by done.
    destruct (Hhead x) as (c & r & -> & Hc & Hplus & Hminus).
    cbn [Py.lstrip]. rewrite Hc. cbn [Py.split_sign]. by rewrite Hplus, Hminus.
  - change (pretty (Z.neg x)) with ("-" +:+ pretty (N.pos x)).
    refine (int_of_str_padded_pos py x (-1) _ w2 _ _ _); [done.. |].
    rewrite lstrip_blank by done.
    change (("-" +:+ pretty (N.pos x)) +:+ w2) with (String "-" (pretty (N.pos x) +:+ w2)).
    reflexivity.
Qed.

End padded_int.

Section port_values.

Lemma int_of_str_blank py s :
  blank s = true → Py.int_of_str py s = Raise (Py.ValueError_invalid_literal s).
Proof.
  intros Hs. unfold Py.int_of_str. by rewrite lstrip_only_blank.
Qed.

Lemma pretty_N_go_digits (k : nat) (x : N) :
  (x < 10 ^ N.of_nat k)%N → (String.length (pretty_N_go x "") ≤ k)%nat.
Proof.
  revert x. induction k as [| k IH]; intros x Hx.
  - assert (x = 0%N) as -> by (simpl in Hx; lia). by rewrite pretty_N_go_0.
  - destruct (decide (x = 0%N)) as [-> | Hx0]; [rewrite pretty_N_go_0; simpl; lia |].
    rewrite pretty_N_go_step, pretty_N_go_length by lia. simpl.
    assert (x `div` 10 < 10 ^ N.of_nat k)%N as Hdiv.
    { apply N.Div0.div_lt_upper_bound.
      rewrite Nat2N.inj_succ, N.pow_succ_r' in Hx. lia. }
    specialize (IH _ Hdiv). lia.
Qed.

(** Port numbers have at most five digits, far below any digit limit. *)
Lemma port_within_digit_limit py (n : Z) :
  0 ≤ n ≤ 65535 → Py.exceeds_digit_limit py (Py.num_digits n) = false.
Proof.
  intros Hn. unfold Py.exceeds_digit_limit.
  assert (Py.num_digits n ≤ 5)%nat as Hdigits.
  { unfold Py.num_digits, pretty, pretty_N.
    destruct (decide (Z.abs_N n = 0%N)); [simpl; lia |].
    apply pretty_N_go_digits. simpl. lia. }
  assert ((Py.str_digits_check_threshold <? Py.num_digits n)%nat = false) as ->; [| done].
  apply Nat.ltb_ge. unfold Py.str_digits_check_threshold. lia.
Qed.

End port_values.

(** ** More on bodies *)

Section ascii_bodies.

Lemma all_ascii_append s t : all_ascii (s +:+ t) = all_ascii s && all_ascii t.
Proof.
  induction s as [| c s IH]; [done |].
  change (all_ascii (String c (s +:+ t)) = all_ascii (String c s) && all_ascii t).
  cbn [all_ascii]. by rewrite IH, andb_assoc.
Qed.

Lemma escape_char_ascii c : all_ascii (Json.escape_char c) = true.
Proof. destruct c as [[] [] [] [] [] [] [] []]; reflexivity. Qed.

Lemma escape_ascii s : all_ascii (Json.escape s) = true.
Proof.
  induction s as [| c s IH]; [done |].
  change (Json.escape (String c s)) with (Json.escape_char c +:+ Json.escape s).
  by rewrite all_ascii_append, escape_char_ascii, IH.
Qed.

Lemma encode_str_ascii s : all_ascii (Json.encode_str s) = true.
Proof.
  unfold Json.encode_str.
  change (all_ascii (String Json.dquote ?r)) with (all_ascii r).
  by rewrite all_ascii_append, escape_ascii.
Qed.

Lemma utf8_length_ascii s :
  all_ascii s = true → Werkzeug.utf8_length s = String.length s.
Proof.
  induction s as [| c s IH]; [done |].
  intros [Hc Hs]%andb_true_iff. cbn [Werkzeug.utf8_length String.length].
  rewrite Hc, (IH Hs). done.
Qed.

Lemma dumps_single_member_ascii debug k s :
  all_ascii (Json.dumps (Flask.dump_args debug) (Json.Obj [(k, Json.Str s)])
             +:+ Werkzeug.nl) = true.
Proof.
  destruct debug.
  - change (Json.dumps (Flask.dump_args true) (Json.Obj [(k, Json.Str s)]))
      with ("{" +:+ String Json.newline "  "
            +:+ (Json.encode_str k +:+ ": " +:+ Json.encode_str s)
            +:+ String Json.newline EmptyString +:+ "}").
    by rewrite !all_ascii_append, !encode_str_ascii.
  - change (Json.dumps (Flask.dump_args false) (Json.Obj [(k, Json.Str s)]))
      with ("{" +:+ EmptyString
            +:+ (Json.encode_str k +:+ ":" +:+ Json.encode_str s)
            +:+ EmptyString +:+ "}").
    by rewrite !all_ascii_append, !encode_str_ascii.
Qed.

End ascii_bodies.

(** * Further properties of the service *)

(** X1.  A [HEAD] request is answered like the same request sent with
    [GET]: with the same status and the same headers, but without a body.
    At ["/"], for an ordinary request, that is status 200 with the content
    type and the content length of the greeting. *)
Theorem root_head_like_get (head : Flask.request) (st : Flask.state) :
  Flask.method head = "HEAD" →
  let rv := fst (Flask.wsgi_app App.app head st) in
  let rv_get := fst (Flask.wsgi_app App.app (with_method "GET" head) st) in
  Werkzeug.status rv = Werkzeug.status rv_get
  ∧ Werkzeug.headers rv = Werkzeug.headers rv_get
  ∧ Werkzeug.data rv = EmptyString
  ∧ (Flask.path head = "/" → ordinary (Flask.python st) head = true →
     Werkzeug.status rv = 200
     ∧ Werkzeug.header "Content-Type" (Werkzeug.headers rv) = Some "application/json"
     ∧ Werkzeug.header "Content-Length" (Werkzeug.headers rv)
       = Some (Py.str (Z.of_nat (String.length (Werkzeug.data rv_get))))).
Proof.
  intros Hm rv rv_get.
  assert (fst (Flask.full_dispatch_request App.app head st)
          = fst (Flask.full_dispatch_request App.app (with_method "GET" head) st)) as Hsame.
  { rewrite !app_dispatch. cbv zeta.
    change (websocket_request (with_method "GET" head)) with (websocket_request head).
    change (Flask.create_url_adapter (Flask.python st) (with_method "GET" head))
      with (Flask.create_url_adapter (Flask.python st) head).
    change (Flask.host (with_method "GET" head)) with (Flask.host head).
    change (Flask.path (with_method "GET" head)) with (Flask.path head).
    change (Flask.method (with_method "GET" head)) with "GET".
    rewrite Hm. reflexivity. }
  assert (rv = {| Werkzeug.status := Werkzeug.status rv_get;
                  Werkzeug.headers := Werkzeug.headers rv_get;
                  Werkzeug.data := EmptyString |}) as Hrv.
  { subst rv rv_get. rewrite !wsgi_app_fst. cbv zeta. rewrite Hm, <- Hsame. reflexivity. }
  rewrite Hrv. cbn [Werkzeug.status Werkzeug.headers Werkzeug.data].
  do 3 (split; [reflexivity |]).
  intros Hp Hordinary. subst rv_get.
  rewrite (root_get_response (with_method "GET" head) st eq_refl Hp).
  change (ordinary (Flask.python st) (with_method "GET" head))
    with (ordinary (Flask.python st) head).
  rewrite Hordinary. split; [reflexivity |]. split; [reflexivity |].
  cbn [Werkzeug.Response Werkzeug.headers Werkzeug.data Werkzeug.header
       Werkzeug.set_header Werkzeug.get_content_type].
  assert (all_ascii (Json.dumps (Flask.dump_args (Flask.debug st)) App.greeting
                     +:+ Werkzeug.nl) = true) as Hascii
    by apply dumps_single_member_ascii.
  rewrite (utf8_length_ascii _ Hascii). reflexivity.
Qed.

Lemma root_head_like_get_witness :
  Flask.method (sample_request "HEAD" "/") = "HEAD"
  ∧ Werkzeug.status (fst (Flask.wsgi_app App.app (sample_request "HEAD" "/") sample_state))
    = Werkzeug.status (fst (Flask.wsgi_app App.app (sample_request "GET" "/") sample_state))
  ∧ Werkzeug.headers (fst (Flask.wsgi_app App.app (sample_request "HEAD" "/") sample_state))
    = Werkzeug.headers (fst (Flask.wsgi_app App.app (sample_request "GET" "/") sample_state))
  ∧ Werkzeug.data (fst (Flask.wsgi_app App.app (sample_request "HEAD" "/") sample_state))
    = EmptyString.
Proof.
  split; [reflexivity |].
  pose proof (root_head_like_get (sample_request "HEAD" "/") sample_state eq_refl)
    as (Hstatus & Hheaders & Hdata & _).
  exact (conj Hstatus (conj Hheaders Hdata)).
Defined.

(** X2.  An ordinary [OPTIONS] request to ["/"] is answered by the
    framework, not by the view: status 200, the three methods of the route
    in the [Allow] header, in the order of the set of them, and an empty
    body.  Any other [OPTIONS] request to ["/"] gets 400. *)
Theorem root_options_lists_methods (req : Flask.request) (st : Flask.state) :
  Flask.method req = "OPTIONS" → Flask.path req = "/" →
  let rv := fst (Flask.wsgi_app App.app req st) in
  if ordinary (Flask.python st) req
  then Werkzeug.status rv = 200
       ∧ (∃ methods, Permutation methods ["GET"; "HEAD"; "OPTIONS"]
                     ∧ Werkzeug.header "Allow" (Werkzeug.headers rv)
                       = Some (Json.join ", " methods))
       ∧ Werkzeug.data rv = EmptyString
  else Werkzeug.status rv = 400.
Proof.
  intros Hm Hp rv. subst rv. rewrite (root_options_response req st Hm Hp).
  destruct (ordinary _ _); [| by destruct (valid_host _ _)].
  split; [done |]. split; [| done].
  exists (Py.set_list (Flask.python st) route_methods).
  split; [apply set_list_perm | done].
Qed.

Lemma root_options_lists_methods_witness :
  Flask.method (sample_request "OPTIONS" "/") = "OPTIONS"
  ∧ Flask.path (sample_request "OPTIONS" "/") = "/"
  ∧ Werkzeug.status (fst (Flask.wsgi_app App.app (sample_request "OPTIONS" "/") sample_state))
    = 200
  ∧ Werkzeug.data (fst (Flask.wsgi_app App.app (sample_request "OPTIONS" "/") sample_state))
    = EmptyString.
Proof.
  do 2 (split; [reflexivity |]).
  pose proof (root_options_lists_methods (sample_request "OPTIONS" "/") sample_state
                eq_refl eq_refl) as (Hstatus & _ & Hdata).
  exact (conj Hstatus Hdata).
Defined.

(** X3.  Whenever the script ends up serving on a socket it has bound, the
    process was started directly, it listens on all interfaces ([0.0.0.0]),
    and [int] gave a port for [PORT] (5000 when [PORT] is unset): for a port
    from 1 to 65535 the listener is on that very port, which the operating
    system granted, and for port 0 on the port the system picked. *)
Theorem serving_address (py : Py.interp) (o : Flask.os) (env : gmap string string)
    (host : string) (p : Z) :
  App.script py o env = Py.Serving host p →
  host = "0.0.0.0" ∧ started_directly env = true
  ∧ ∃ n, App.port py env = Ok n
         ∧ (env !! "PORT" = None → n = 5000)
         ∧ (1 ≤ n ≤ 65535 → p = n ∧ Flask.bind_error o "0.0.0.0" n = None)
         ∧ (n = 0 → p = Flask.ephemeral_port o).
Proof.
  intros Hserving.
  destruct (App.port py env) as [n | e] eqn:Hport.
  2:{ destruct (script_port_raises py o env e Hport) as [_ Hexit]. congruence. }
  destruct (Flask.env_is env "FLASK_RUN_FROM_CLI" "true") eqn:Hcli.
  { rewrite (script_from_cli py o env n Hport Hcli) in Hserving. done. }
  destruct (Flask.is_running_from_reloader env) eqn:Hchild.
  { by destruct (script_reloader_child py o env n host p Hport Hchild). }
  assert (started_directly env = true) as Hdirect
    by (unfold started_directly; by rewrite Hcli, Hchild).
  assert (host = "0.0.0.0") as ->.
  { rewrite (script_started_directly py o env n Hport Hdirect) in Hserving.
    unfold Flask.get_sockaddr in Hserving.
    destruct (_ && _); [| destruct (Flask.getaddrinfo_port o n)]; cbv iota beta in Hserving;
      try done;
      (destruct (_ || _); [done |]);
      (destruct (Flask.bind_error _ _ _) as [[errno strerror] |]; [done |]);
      by injection Hserving. }
  split; [done |]. split; [done |]. exists n. split; [done |]. split; [| split].
  - intros Henv. unfold App.port, Py.environ_get in Hport. rewrite Henv in Hport.
    by injection Hport.
  - intros Hn. rewrite (script_tcp_port py o env n Hport Hdirect Hn) in Hserving.
    destruct (Flask.bind_error o "0.0.0.0" n) as [[errno strerror] |]; [done |].
    by injection Hserving.
  - intros ->. rewrite (script_started_directly py o env 0 Hport Hdirect) in Hserving.
    rewrite get_sockaddr_in_range in Hserving by lia. cbn [Z.ltb Z.compare orb] in Hserving.
    destruct (Flask.bind_error o "0.0.0.0" 0) as [[errno strerror] |]; [done |].
    by injection Hserving.
Qed.

Lemma serving_address_witness :
  App.script Py.default_interp free_os {[ "PORT" := "8080" ]} = Py.Serving "0.0.0.0" 8080
  ∧ started_directly {[ "PORT" := "8080" ]} = true.
Proof.
  split; [reflexivity |].
  exact (proj1 (proj2 (serving_address Py.default_interp free_os {[ "PORT" := "8080" ]}
                         "0.0.0.0" 8080 eq_refl))).
Defined.

(** X4.  Whitespace around the number does not matter: with [PORT] set to
    the decimal text of [N] with any whitespace before and after it (a
    trailing newline, say), the script calls [app.run] with port [N]. *)
Theorem padded_port_is_accepted (py : Py.interp) (o : Flask.os)
    (env : gmap string string) (N : Z) (w1 w2 : string) :
  blank w1 = true → blank w2 = true →
  env !! "PORT" = Some (w1 +:+ Py.str N +:+ w2) →
  Py.exceeds_digit_limit py (Py.num_digits N) = false →
  App.port py env = Ok N
  ∧ App.main py o env = Flask.run py o env App.app "0.0.0.0" N.
Proof.
  intros Hw1 Hw2 Henv Hlimit.
  assert (App.port py env = Ok N) as Hport.
  { unfold App.port, Py.environ_get. rewrite Henv. simpl.
    by apply int_of_str_padded. }
  split; [done |]. unfold App.main. by rewrite Hport.
Qed.

Lemma padded_port_is_accepted_witness :
  blank " " = true
  ∧ blank (String (ascii_of_N 10) EmptyString) = true
  ∧ ({[ "PORT" := " " +:+ Py.str 8080 +:+ String (ascii_of_N 10) EmptyString ]}
       : gmap string string) !! "PORT"
    = Some (" " +:+ Py.str 8080 +:+ String (ascii_of_N 10) EmptyString)
  ∧ Py.exceeds_digit_limit Py.default_interp (Py.num_digits 8080) = false
  ∧ App.port Py.default_interp
      {[ "PORT" := " " +:+ Py.str 8080 +:+ String (ascii_of_N 10) EmptyString ]}
    = Ok 8080.
Proof.
  do 4 (split; [reflexivity |]).
  apply (padded_port_is_accepted Py.default_interp free_os
           {[ "PORT" := " " +:+ Py.str 8080 +:+ String (ascii_of_N 10) EmptyString ]}
           8080 " " (String (ascii_of_N 10) EmptyString)); reflexivity.
Defined.

(** X5.  A [PORT] that is set but empty, or holds only whitespace, is not
    treated as unset: [int] rejects it and the process ends with status 1
    without calling [app.run]. *)
Theorem blank_port_is_fatal (py : Py.interp) (o : Flask.os)
    (env : gmap string string) (s : string) :
  env !! "PORT" = Some s → blank s = true →
  App.main py o env = Raise (Py.ValueError_invalid_literal s)
  ∧ App.script py o env
    = Py.Exited 1 (Py.traceback (Py.ValueError_invalid_literal s)).
Proof.
  intros Henv Hs.
  assert (App.main py o env = Raise (Py.ValueError_invalid_literal s)) as Hmain.
  { unfold App.main, App.port, Py.environ_get. rewrite Henv. simpl.
    by rewrite int_of_str_blank. }
  split; [done |]. unfold App.script. by rewrite Hmain.
Qed.

Lemma blank_port_is_fatal_witness :
  ({[ "PORT" := EmptyString ]} : gmap string string) !! "PORT" = Some EmptyString
  ∧ blank EmptyString = true
  ∧ App.script Py.default_interp free_os {[ "PORT" := EmptyString ]}
    = Py.Exited 1 (Py.traceback (Py.ValueError_invalid_literal EmptyString)).
Proof.
  do 2 (split; [reflexivity |]).
  apply (blank_port_is_fatal Py.default_interp free_os {[ "PORT" := EmptyString ]}
           EmptyString); reflexivity.
Defined.

(** X6.  A [PORT] that is an integer outside 0..65535 is converted, but
    where the C library does not resolve the number to a port, as for every
    small negative number, a process started directly fails with
    [OverflowError], raised by [bind] or, for a number that does not fit a C
    [long], by [getaddrinfo]: it ends with status 1 and never serves. *)
Theorem out_of_range_port_is_fatal (py : Py.interp) (o : Flask.os)
    (env : gmap string string) (N : Z) :
  env !! "PORT" = Some (Py.str N) →
  Py.exceeds_digit_limit py (Py.num_digits N) = false →
  N < 0 ∨ 65535 < N →
  started_directly env = true →
  (∀ p, Flask.getaddrinfo_port o N ≠ Flask.Port p) →
  App.port py env = Ok N
  ∧ App.script py o env
    = Py.Exited 1
        (Py.traceback (match Flask.getaddrinfo_port o N with
                       | Flask.TooLarge => Py.OverflowError_c_long
                       | _ => Py.OverflowError_port
                       end)).
Proof.
  intros Henv Hlimit Hrange Hdirect Hnone.
  assert (App.port py env = Ok N) as Hport.
  { unfold App.port, Py.environ_get. rewrite Henv. simpl.
    by apply int_of_str_str. }
  split; [done |].
  rewrite (script_started_directly py o env N Hport Hdirect).
  rewrite (get_sockaddr_out_of_range o N Hrange).
  destruct (Flask.getaddrinfo_port o N) as [p | |]; [by destruct (Hnone p) | | done].
  by rewrite (out_of_range_test N Hrange).
Qed.

Lemma out_of_range_port_is_fatal_witness :
  ({[ "PORT" := "-1" ]} : gmap string string) !! "PORT" = Some (Py.str (-1))
  ∧ Py.exceeds_digit_limit Py.default_interp (Py.num_digits (-1)) = false
  ∧ (-1 < 0 ∨ 65535 < -1)
  ∧ started_directly {[ "PORT" := "-1" ]} = true
  ∧ Flask.getaddrinfo_port free_os (-1) = Flask.NoService
  ∧ App.script Py.default_interp free_os {[ "PORT" := "-1" ]}
    = Py.Exited 1 (Py.traceback Py.OverflowError_port).
Proof.
  split; [reflexivity |]. split; [reflexivity |]. split; [left; lia |].
  split; [reflexivity |]. split; [reflexivity |].
  refine (proj2 (out_of_range_port_is_fatal Py.default_interp free_os {[ "PORT" := "-1" ]}
                   (-1) eq_refl eq_refl _ eq_refl _));
    [left; lia | intros p; discriminate].
Defined.

(** X7.  Every TCP port number works, whatever the interpreter's limit on
    the length of integer strings: with [PORT] set to the decimal text of a
    number from 1 to 65535 the script calls [app.run] with that port, and a
    process started directly serves on it whenever the operating system
    grants the address. *)
Theorem tcp_port_is_served (py : Py.interp) (o : Flask.os)
    (env : gmap string string) (N : Z) :
  1 ≤ N ≤ 65535 →
  env !! "PORT" = Some (Py.str N) →
  App.main py o env = Flask.run py o env App.app "0.0.0.0" N
  ∧ (started_directly env = true →
     Flask.bind_error o "0.0.0.0" N = None →
     App.script py o env = Py.Serving "0.0.0.0" N).
Proof.
  intros Hrange Henv.
  assert (App.port py env = Ok N) as Hport.
  { unfold App.port, Py.environ_get. rewrite Henv. simpl.
    apply int_of_str_str, port_within_digit_limit. lia. }
  split; [by apply main_run |]. intros Hdirect Hbind.
  by rewrite (script_tcp_port py o env N Hport Hdirect Hrange), Hbind.
Qed.

Lemma tcp_port_is_served_witness :
  1 ≤ 443 ≤ 65535
  ∧ ({[ "PORT" := "443" ]} : gmap string string) !! "PORT" = Some (Py.str 443)
  ∧ App.script Py.default_interp free_os {[ "PORT" := "443" ]} = Py.Serving "0.0.0.0" 443.
Proof.
  split; [lia |]. split; [reflexivity |].
  refine (proj2 (tcp_port_is_served Py.default_interp free_os {[ "PORT" := "443" ]} 443
                   _ eq_refl) eq_refl eq_refl).
  lia.
Defined.

(** X8.  The response of [jsonify] to a mapping with one string value can
    always be decoded back: for every key and every message text, with
    quotes, backslashes, control or non-ASCII characters in it, in compact
    and in debug layout, the view's [jsonify] call returns status 200 and a
    body that [json.loads] reads as the same mapping, and leaves the state
    alone. *)
Theorem jsonify_message_round_trip (key message : string) (st : Flask.state) :
  ∃ rv, Flask.jsonify (Json.Obj [(key, Json.Str message)]) st = (Ok rv, st)
        ∧ Werkzeug.status rv = 200
        ∧ Json.loads (Werkzeug.data rv) = Some (Json.Obj [(key, Json.Str message)]).
Proof.
  eexists. split; [reflexivity |]. split; [reflexivity |].
  apply loads_dumps_single_member.
Qed.

(** X9.  The body [jsonify] produces for such a mapping is pure ASCII,
    whatever characters key and message contain, so the [Content-Length]
    header is the number of characters of the body. *)
Theorem jsonify_body_is_ascii (key message : string) (st : Flask.state) :
  ∃ rv, fst (Flask.jsonify (Json.Obj [(key, Json.Str message)]) st) = Ok rv
        ∧ all_ascii (Werkzeug.data rv) = true
        ∧ Werkzeug.header "Content-Length" (Werkzeug.headers rv)
          = Some (Py.str (Z.of_nat (String.length (Werkzeug.data rv)))).
Proof.
  eexists. split; [reflexivity |].
  pose proof (dumps_single_member_ascii (Flask.debug st) key message) as Hascii.
  split; [exact Hascii |].
  cbn [Werkzeug.Response Werkzeug.headers Werkzeug.data Werkzeug.header
       Werkzeug.set_header Werkzeug.get_content_type].
  rewrite (utf8_length_ascii _ Hascii). reflexivity.
Qed.

(** X10.  Requests do not influence each other: in any run of the service
    every request gets the response it would get if it were the only one,
    so serving a sequence of requests is the same as serving its parts. *)
Theorem serve_each_alone (reqs more : list Flask.request) (st : Flask.state) :
  fst (Flask.serve App.app reqs st)
  = map (λ req, fst (Flask.wsgi_app App.app req st)) reqs
  ∧ fst (Flask.serve App.app (reqs ++ more) st)
    = fst (Flask.serve App.app reqs st) ++ fst (Flask.serve App.app more st).
Proof.
  rewrite !(serve_map _ app_views_pure). split; [done |]. apply map_app.
Qed.


(** X12.  Status 200 is given only at the root: a request answered with 200
    is either an [OPTIONS] request, answered by the framework with an empty
    body, or a [GET] or [HEAD] request whose path is ["/"] (possibly written
    with more leading slashes).  No other path ever returns the greeting. *)
Theorem ok_only_at_root (req : Flask.request) (st : Flask.state) :
  let rv := fst (Flask.wsgi_app App.app req st) in
  Werkzeug.status rv = 200 →
  (Flask.upper (Flask.method req) = "OPTIONS" ∧ Werkzeug.data rv = EmptyString)
  ∨ (Werkzeug.path_part (Flask.path req) = "/"
     ∧ (Flask.upper (Flask.method req) = "GET"
        ∨ Flask.upper (Flask.method req) = "HEAD")).
Proof.
  intros rv. subst rv. rewrite wsgi_app_status. intros Hok.
  destruct (app_ok_cases req st Hok) as [[Hopt Hdata] | Hroot]; [| by right].
  left. split; [done |]. rewrite wsgi_app_fst. cbv zeta.
  by destruct (String.eqb _ "HEAD").
Qed.

Lemma ok_only_at_root_witness :
  Werkzeug.status (fst (Flask.wsgi_app App.app (sample_request "GET" "/") sample_state))
  = 200
  ∧ ((Flask.upper (Flask.method (sample_request "GET" "/")) = "OPTIONS"
      ∧ Werkzeug.data (fst (Flask.wsgi_app App.app (sample_request "GET" "/") sample_state))
        = EmptyString)
     ∨ (Werkzeug.path_part (Flask.path (sample_request "GET" "/")) = "/"
        ∧ (Flask.upper (Flask.method (sample_request "GET" "/")) = "GET"
           ∨ Flask.upper (Flask.method (sample_request "GET" "/")) = "HEAD"))).
Proof.
  split; [reflexivity |].
  apply (ok_only_at_root (sample_request "GET" "/") sample_state). reflexivity.
Defined.

(** X13.  A path of one segment is never routed: every request with a valid
    host to a path such as [/unknown], [/health] or [/favicon.ico], with
    whatever method and kind of connection, gets the framework's not-found
    response, status 404; with an invalid host it gets 400. *)
Theorem single_segment_returns_404 (req : Flask.request) (st : Flask.state)
    (c : ascii) (segment : string) :
  Flask.path req = String "/" (String c segment) →
  no_slash (String c segment) = true →
  Werkzeug.status (fst (Flask.wsgi_app App.app req st))
  = if valid_host (Flask.python st) (Flask.host req) then 404 else 400.
Proof.
  intros Hpath Hsegment.
  pose proof (single_segment_unrouted c segment Hsegment) as Hunrouted.
  rewrite <- Hpath in Hunrouted. unfold unrouted in Hunrouted.
  apply andb_true_iff in Hunrouted as [[[Hroot Hempty]%andb_true_iff
    Hstatic]%andb_true_iff Hmerged].
  apply negb_true_iff in Hroot, Hempty, Hstatic, Hmerged.
  rewrite app_status. unfold expected_status.
  rewrite Hroot, Hstatic, Hempty, Hmerged.
  by destruct (valid_host _ _).
Qed.

Lemma single_segment_returns_404_witness :
  Flask.path (sample_request "GET" "/health") = String "/" (String "h" "ealth")
  ∧ no_slash (String "h" "ealth") = true
  ∧ Werkzeug.status (fst (Flask.wsgi_app App.app (sample_request "GET" "/health") sample_state))
    = 404.
Proof.
  do 2 (split; [reflexivity |]).
  exact (single_segment_returns_404 (sample_request "GET" "/health") sample_state
           "h"%char "ealth" eq_refl eq_refl).
Defined.
